(** * ai-report-analyzer: the CSV-to-insight pipeline

    A shallow embedding of [app/ingestion/loader.py],
    [app/processing/aggregator.py] and the [upload_report] handler of
    [app/main.py], together with the parts of pandas and of the Python
    runtime those few lines rest on.

    Conventions.
    - A Python exception is a value of [exn]; code that may raise returns
      a [result].
    - A float64 is modelled by its exact value ([f64]): a rational, an
      infinity or NaN.  Rounding is not modelled, so every statement about
      floating-point sums and means is a statement about exact arithmetic.
    - An int64 is a [Z] in the signed 64-bit range; reductions that numpy
      performs in int64 wrap around ([wrap64]).
    - Functions of the Python runtime and of the external collaborators
      whose internals the pipeline never looks at ([json.loads], [str],
      float formatting, the insight service, the database session) are
      section variables. *)

From Stdlib Require Import ZArith QArith Qcanon List String Ascii Bool Arith Lia.
From Stdlib Require Import DecimalString.
Import ListNotations.

Set Warnings "-register-all".

Close Scope Qc_scope.
Close Scope Q_scope.
Open Scope string_scope.

(* ================================================================== *)
(** ** Python: exceptions and results *)

Module Py.

(** The exceptions the pipeline can meet.  [OutsideModel] marks an input
    on which this development does not follow pandas (see [Pandas.read_csv]);
    for the handler it is an exception like any other. *)
Inductive exn : Type :=
| EmptyDataError (msg : string)
| ParserError (msg : string)
| UnicodeDecodeError
| ValueError (msg : string)
| KeyError (key : string)
| TypeError (msg : string)
| AttributeError (msg : string)
| JSONDecodeError (msg : string)
| ServiceError (msg : string)
| HTTPException (status_code : Z) (detail : string)
| OutsideModel (what : string).

Inductive result (A : Type) : Type :=
| Ok (a : A)
| Raise (e : exn).

Arguments Ok {A} a.
Arguments Raise {A} e.

Definition bind {A B} (r : result A) (k : A -> result B) : result B :=
  match r with
  | Ok a => k a
  | Raise e => Raise e
  end.

(** [try: body except: handler] with a bare [except]. *)
Definition try_except {A} (body : result A) (handler : result A) : result A :=
  match body with
  | Ok a => Ok a
  | Raise _ => handler
  end.

(** [str(e)] for the exceptions above. *)
Definition str_exn (e : exn) : string :=
  match e with
  | EmptyDataError m | ParserError m | ValueError m | TypeError m
  | AttributeError m | JSONDecodeError m | ServiceError m | OutsideModel m => m
  | UnicodeDecodeError => "'utf-8' codec can't decode bytes"
  | KeyError k => "'" ++ k ++ "'"
  | HTTPException _ d => d
  end.

End Py.
Export Py.

Notation "x <- c1 ;; c2" := (Py.bind c1 (fun x => c2))
  (at level 61, c1 at next level, right associativity).

(* ================================================================== *)
(** ** Numbers *)

Module Num.

(** float64, by exact value. *)
Inductive f64 : Type :=
| NaN
| NInf
| PInf
| Fin (q : Qc).

(** The rational in lowest terms.  Every operation builds its result
    with it, so that equal values are equal terms once computed. *)
Definition mkQc (q : Q) : Qc := Q2Qc (Qred q).

Definition f64_of_Q (q : Q) : f64 := Fin (mkQc q).

Definition f64_of_Z (z : Z) : f64 := f64_of_Q (inject_Z z).

Definition fzero : f64 := f64_of_Q 0.

Definition isnan (x : f64) : bool :=
  match x with NaN => true | _ => false end.

(** IEEE addition on exact values: NaN is absorbing and the two
    infinities cancel into NaN. *)
Definition fadd (x y : f64) : f64 :=
  match x, y with
  | NaN, _ | _, NaN => NaN
  | PInf, NInf | NInf, PInf => NaN
  | PInf, _ | _, PInf => PInf
  | NInf, _ | _, NInf => NInf
  | Fin a, Fin b => f64_of_Q (a + b)
  end.

(** Division of a sum by a count; NaN for no value. *)
Definition fdiv_count (x : f64) (n : nat) : f64 :=
  match n with
  | O => NaN
  | S _ =>
      match x with
      | Fin a => f64_of_Q (a / inject_Z (Z.of_nat n))
      | other => other
      end
  end.

(** [x <= y]; false as soon as one side is NaN. *)
Definition fle (x y : f64) : bool :=
  match x, y with
  | NaN, _ | _, NaN => false
  | NInf, _ => true
  | _, PInf => true
  | Fin a, Fin b => Qle_bool a b
  | _, _ => false
  end.

Definition fmin (x y : f64) : f64 := if fle x y then x else y.
Definition fmax (x y : f64) : f64 := if fle x y then y else x.

(** int64. *)
Definition int64_min : Z := - 2 ^ 63.
Definition int64_max : Z := 2 ^ 63 - 1.

Definition in_int64 (z : Z) : Prop := (int64_min <= z <= int64_max)%Z.

Definition wrap64 (z : Z) : Z :=
  ((z + 2 ^ 63) mod 2 ^ 64 - 2 ^ 63)%Z.

(** A numpy scalar as the reductions return it: [np.int64] or
    [np.float64]. *)
Inductive num : Type :=
| I64 (z : Z)
| F64 (x : f64).

(** The value of a scalar, as a float64. *)
Definition num_val (n : num) : f64 :=
  match n with
  | I64 z => f64_of_Z z
  | F64 x => x
  end.

End Num.
Export Num.

(* ================================================================== *)
(** ** Text *)

Module Text.

Definition LF : ascii := ascii_of_nat 10.
Definition CR : ascii := ascii_of_nat 13.
Definition TAB : ascii := ascii_of_nat 9.
Definition SPACE : ascii := ascii_of_nat 32.
Definition DQUOTE : ascii := ascii_of_nat 34.
Definition BACKSLASH : ascii := ascii_of_nat 92.

Definition nl : string := String LF EmptyString.

Fixpoint join (sep : string) (parts : list string) : string :=
  match parts with
  | [] => ""
  | [p] => p
  | p :: rest => p ++ sep ++ join sep rest
  end.

Fixpoint replicate (n : nat) (c : ascii) : string :=
  match n with
  | O => ""
  | S k => String c (replicate k c)
  end.

(** [s.rjust(w)] and [s.ljust(w)] *)
Definition rjust (w : nat) (s : string) : string :=
  replicate (w - String.length s) SPACE ++ s.

Definition ljust (w : nat) (s : string) : string :=
  s ++ replicate (w - String.length s) SPACE.

(** [s.split("\n")] *)
Fixpoint split_lines (s : string) : list string :=
  match s with
  | EmptyString => [""]
  | String c rest =>
      if Ascii.eqb c LF then "" :: split_lines rest
      else match split_lines rest with
           | [] => [String c ""]
           | l :: ls => String c l :: ls
           end
  end.

Fixpoint contains_char (c : ascii) (s : string) : bool :=
  match s with
  | EmptyString => false
  | String d rest => Ascii.eqb d c || contains_char c rest
  end.

Definition one_line (s : string) : Prop := contains_char LF s = false.

(** pandas' [pprint_thing(s, escape_chars=("\t", "\r", "\n"))] on a
    string: the three characters are written as backslash escapes. *)
Fixpoint escape (s : string) : string :=
  match s with
  | EmptyString => ""
  | String c rest =>
      if Ascii.eqb c LF then String BACKSLASH (String "n" (escape rest))
      else if Ascii.eqb c CR then String BACKSLASH (String "r" (escape rest))
      else if Ascii.eqb c TAB then String BACKSLASH (String "t" (escape rest))
      else String c (escape rest)
  end.

(** Decimal digits of a natural number and of an integer. *)
Definition string_of_nat (n : nat) : string :=
  NilEmpty.string_of_uint (Nat.to_uint n).

Definition string_of_Z (z : Z) : string :=
  NilEmpty.string_of_int (Z.to_int z).

Definition max_len (ss : list string) : nat :=
  fold_right (fun s m => Nat.max (String.length s) m) 0 ss.

End Text.
Export Text.

(* ================================================================== *)
(** ** pandas: frames, dtypes and reductions *)

Module Pandas.

Inductive dtype : Type := int64 | float64 | bool_ | object_.

Definition dtype_eqb (a b : dtype) : bool :=
  match a, b with
  | int64, int64 | float64, float64 | bool_, bool_ | object_, object_ => true
  | _, _ => false
  end.

(** A column and its values.  A missing value is NaN in a float64 column
    and [None] in an object column; int64 and bool columns have none. *)
Inductive Column : Type :=
| Int64Col (vs : list Z)
| Float64Col (vs : list f64)
| BoolCol (vs : list bool)
| ObjectCol (vs : list (option string)).

Definition dtype_of (c : Column) : dtype :=
  match c with
  | Int64Col _ => int64
  | Float64Col _ => float64
  | BoolCol _ => bool_
  | ObjectCol _ => object_
  end.

Definition col_len (c : Column) : nat :=
  match c with
  | Int64Col vs => List.length vs
  | Float64Col vs => List.length vs
  | BoolCol vs => List.length vs
  | ObjectCol vs => List.length vs
  end.

(** A DataFrame with the default index [0 .. index_len - 1] and its
    labelled columns, in order. *)
Record DataFrame : Type := {
  index_len : nat;
  columns : list (string * Column)
}.

Definition column_names (df : DataFrame) : list string :=
  map fst df.(columns).

Definition col_in_range (c : Column) : Prop :=
  match c with
  | Int64Col vs => Forall in_int64 vs
  | _ => True
  end.

(** What pandas maintains of every frame the pipeline sees: columns as
    long as the index, labels that [read_csv] has made unique, int64
    values in range. *)
Record wf_frame (df : DataFrame) : Prop := {
  wf_len : Forall (fun nc => col_len (snd nc) = df.(index_len)) df.(columns);
  wf_names : NoDup (column_names df);
  wf_range : Forall (fun nc => col_in_range (snd nc)) df.(columns)
}.

(** [len(df)] *)
Definition len (df : DataFrame) : nat := df.(index_len).

(** [df.empty]: any axis of length 0. *)
Definition empty (df : DataFrame) : bool :=
  Nat.eqb df.(index_len) 0 || Nat.eqb (List.length df.(columns)) 0.

(** [df.select_dtypes(include=...)] *)
Definition select_dtypes (include : list dtype) (df : DataFrame) : DataFrame :=
  {| index_len := df.(index_len);
     columns := filter (fun nc => existsb (dtype_eqb (dtype_of (snd nc))) include)
                       df.(columns) |}.

Definition count_label (col : string) (df : DataFrame) : nat :=
  List.length (filter (String.eqb col) (column_names df)).

Fixpoint lookup_col (col : string) (cs : list (string * Column)) : option Column :=
  match cs with
  | [] => None
  | (n, c) :: rest => if String.eqb col n then Some c else lookup_col col rest
  end.

(** [df[col]] for a label: the column when the label occurs once,
    [KeyError] when it does not occur.  A repeated label selects a
    sub-frame in pandas, which this model does not follow. *)
Definition getitem (df : DataFrame) (col : string) : result Column :=
  match lookup_col col df.(columns) with
  | None => Raise (KeyError col)
  | Some c =>
      if Nat.eqb (count_label col df) 1 then Ok c
      else Raise (OutsideModel "repeated column label")
  end.

(** [df.head(n)] *)
Definition head_col (n : nat) (c : Column) : Column :=
  match c with
  | Int64Col vs => Int64Col (firstn n vs)
  | Float64Col vs => Float64Col (firstn n vs)
  | BoolCol vs => BoolCol (firstn n vs)
  | ObjectCol vs => ObjectCol (firstn n vs)
  end.

Definition head (n : nat) (df : DataFrame) : DataFrame :=
  {| index_len := Nat.min n df.(index_len);
     columns := map (fun nc => (fst nc, head_col n (snd nc))) df.(columns) |}.

(** *** Reductions ([pandas.core.nanops], [skipna=True]) *)

Definition Zsum (vs : list Z) : Z := fold_left Z.add vs 0%Z.

Definition fsum (vs : list f64) : f64 := fold_left fadd vs fzero.

(** The values of a float64 column with the missing ones replaced. *)
Definition fillna (fill : f64) (vs : list f64) : list f64 :=
  map (fun v => if isnan v then fill else v) vs.

Definition count_valid (vs : list f64) : nat :=
  List.length (filter (fun v => negb (isnan v)) vs).

Definition reduce {A} (f : A -> A -> A) (vs : list A) (default : A) : A :=
  match vs with
  | [] => default
  | v :: rest => fold_left f rest v
  end.

Definition not_numeric : exn := OutsideModel "reduction of a non-numeric column".

(** [Series.sum()]: int64 columns are summed in int64, float64 columns
    with the missing values replaced by 0. *)
Definition series_sum (c : Column) : result num :=
  match c with
  | Int64Col vs => Ok (I64 (wrap64 (Zsum vs)))
  | Float64Col vs => Ok (F64 (fsum (fillna fzero vs)))
  | _ => Raise not_numeric
  end.

(** [Series.mean()]: the float64 sum of the valid values over their
    count, NaN when there is none. *)
Definition series_mean (c : Column) : result num :=
  match c with
  | Int64Col vs => Ok (F64 (fdiv_count (fsum (map f64_of_Z vs)) (List.length vs)))
  | Float64Col vs => Ok (F64 (fdiv_count (fsum (fillna fzero vs)) (count_valid vs)))
  | _ => Raise not_numeric
  end.

(** [Series.min()]: NaN for no value or no valid value; otherwise the
    minimum, the missing values counted as +inf. *)
Definition series_min (c : Column) : result num :=
  match c with
  | Int64Col [] => Ok (F64 NaN)
  | Int64Col (v :: rest) => Ok (I64 (fold_left Z.min rest v))
  | Float64Col vs =>
      if Nat.eqb (count_valid vs) 0 then Ok (F64 NaN)
      else Ok (F64 (reduce fmin (fillna PInf vs) NaN))
  | _ => Raise not_numeric
  end.

(** [Series.max()], the missing values counted as -inf. *)
Definition series_max (c : Column) : result num :=
  match c with
  | Int64Col [] => Ok (F64 NaN)
  | Int64Col (v :: rest) => Ok (I64 (fold_left Z.max rest v))
  | Float64Col vs =>
      if Nat.eqb (count_valid vs) 0 then Ok (F64 NaN)
      else Ok (F64 (reduce fmax (fillna NInf vs) NaN))
  | _ => Raise not_numeric
  end.

(** *** Rendering ([DataFrame.to_string] with its defaults) *)

Section ToString.

(** pandas' float formatter: the text of one value of a float64 column;
    it may depend on the whole column, whose values share their number
    of digits. *)
Variable format_float : list f64 -> f64 -> string.

Definition is_numeric_dtype (d : dtype) : bool :=
  match d with
  | int64 | float64 | bool_ => true
  | object_ => false
  end.

(** [f"{x: d}"]: the sign, or a blank in its place. *)
Definition format_int (z : Z) : string :=
  if (z <? 0)%Z then string_of_Z z else String SPACE (string_of_Z z).

Definition format_object (o : option string) : string :=
  match o with
  | Some s => escape s
  | None => "NaN"
  end.

Definition format_col (c : Column) : list string :=
  match c with
  | Int64Col vs => map format_int vs
  | Float64Col vs => map (format_float vs) vs
  | BoolCol vs => map (fun b : bool => if b then " True" else " False") vs
  | ObjectCol vs => map (fun o => String SPACE (format_object o)) vs
  end.

(** One column of text: the label over the values, all right-justified
    to the same width. *)
Definition str_column (nc : string * Column) : list string :=
  let label := escape (fst nc) in
  let cheader :=
    if is_numeric_dtype (dtype_of (snd nc)) then String SPACE label else label in
  let fmt_values := format_col (snd nc) in
  let w := Nat.max (max_len fmt_values) (String.length cheader) in
  rjust w cheader :: map (rjust w) fmt_values.

Definition str_index (n : nat) : list string :=
  "" :: map string_of_nat (seq 0 n).

Fixpoint zip_append (a b : list string) : list string :=
  match a, b with
  | x :: a', y :: b' => (x ++ y) :: zip_append a' b'
  | _, _ => []
  end.

Definition pad_column (strs : list string) : list string :=
  map (ljust (max_len strs + 1)) strs.

(** [adjoin(1, *strcols)]: the columns side by side, every one but the
    last padded to its width plus one blank. *)
Fixpoint adjoin (strcols : list (list string)) : list string :=
  match strcols with
  | [] => []
  | [c] => c
  | c :: rest => zip_append (pad_column c) (adjoin rest)
  end.

(** [pprint_thing] of a sequence of labels, cut after
    [display.max_seq_items] = 100. *)
Definition pprint_seq (items : list string) : string :=
  "[" ++ join ", " (firstn 100 items)
      ++ (if Nat.ltb 100 (List.length items) then ", ..." else "") ++ "]".

(** The lines of a frame that is not empty: the header, then one line
    per row. *)
Definition to_string_lines (df : DataFrame) : list string :=
  adjoin (str_index df.(index_len) :: map str_column df.(columns)).

Definition to_string (df : DataFrame) : string :=
  if empty df then
    "Empty DataFrame" ++ nl
      ++ "Columns: " ++ pprint_seq (column_names df) ++ nl
      ++ "Index: " ++ pprint_seq (map string_of_nat (seq 0 df.(index_len)))
  else join nl (to_string_lines df).

End ToString.

(** *** Reading CSV ([pandas.read_csv] with its defaults, C engine)

    The model follows the tokenizer of the C engine for the default
    dialect (comma, double quote with doubling, [\n], [\r] or [\r\n]
    line ends, blank lines skipped), the header handling and the
    inference of column dtypes.  Where it does not follow pandas it
    says so with [OutsideModel]: a first data row longer than the
    header (pandas turns the extra leading fields into the index) and
    integers beyond int64 (pandas tries uint64). *)

Definition byte (c : ascii) : nat := nat_of_ascii c.

Definition in_range (lo hi : nat) (c : ascii) : bool :=
  Nat.leb lo (byte c) && Nat.leb (byte c) hi.

Definition is_cont (c : ascii) : bool := in_range 128 191 c.

(** Well-formed UTF-8 (the table of the Unicode standard). *)
Fixpoint utf8_valid (s : string) : bool :=
  match s with
  | EmptyString => true
  | String b0 r0 =>
      if Nat.ltb (byte b0) 128 then utf8_valid r0
      else if in_range 194 223 b0 then
        match r0 with
        | String b1 r1 => is_cont b1 && utf8_valid r1
        | _ => false
        end
      else if in_range 224 239 b0 then
        match r0 with
        | String b1 (String b2 r2) =>
            (if Nat.eqb (byte b0) 224 then in_range 160 191 b1
             else if Nat.eqb (byte b0) 237 then in_range 128 159 b1
             else is_cont b1)
            && is_cont b2 && utf8_valid r2
        | _ => false
        end
      else if in_range 240 244 b0 then
        match r0 with
        | String b1 (String b2 (String b3 r3)) =>
            (if Nat.eqb (byte b0) 240 then in_range 144 191 b1
             else if Nat.eqb (byte b0) 244 then in_range 128 143 b1
             else is_cont b1)
            && is_cont b2 && is_cont b3 && utf8_valid r3
        | _ => false
        end
      else false
  end.

(** The states of the tokenizer that the default dialect reaches. *)
Inductive tok_state : Type :=
| START_RECORD
| START_FIELD
| IN_FIELD
| IN_QUOTED_FIELD
| QUOTE_IN_QUOTED_FIELD
| WHITESPACE_LINE
| EAT_CRNL
| EAT_CRNL_NOP.

(** The field, the record and the records read so far, each with its
    latest item first. *)
Record tokenizer : Type := {
  state : tok_state;
  field : list ascii;
  record : list string;
  records : list (list string)
}.

Definition set_state (st : tok_state) (t : tokenizer) : tokenizer :=
  {| state := st; field := t.(field); record := t.(record); records := t.(records) |}.

Definition PUSH_CHAR (c : ascii) (t : tokenizer) : tokenizer :=
  {| state := t.(state); field := c :: t.(field);
     record := t.(record); records := t.(records) |}.

Definition string_of_rev (cs : list ascii) : string :=
  fold_left (fun s c => String c s) cs "".

Definition END_FIELD (t : tokenizer) : tokenizer :=
  {| state := t.(state); field := [];
     record := string_of_rev t.(field) :: t.(record); records := t.(records) |}.

Definition END_LINE (t : tokenizer) : tokenizer :=
  {| state := START_RECORD; field := [];
     record := []; records := rev t.(record) :: t.(records) |}.

Definition drop_field (st : tok_state) (t : tokenizer) : tokenizer :=
  {| state := st; field := []; record := t.(record); records := t.(records) |}.

Definition is_delimiter (c : ascii) : bool := Ascii.eqb c ",".
Definition is_whitespace (c : ascii) : bool := Ascii.eqb c SPACE || Ascii.eqb c TAB.

Definition in_field_step (t : tokenizer) (c : ascii) : tokenizer :=
  if Ascii.eqb c LF then END_LINE (END_FIELD t)
  else if Ascii.eqb c CR then set_state EAT_CRNL (END_FIELD t)
  else if is_delimiter c then set_state START_FIELD (END_FIELD t)
  else PUSH_CHAR c t.

Definition start_field_step (t : tokenizer) (c : ascii) : tokenizer :=
  if Ascii.eqb c LF then END_LINE (END_FIELD t)
  else if Ascii.eqb c CR then set_state EAT_CRNL (END_FIELD t)
  else if Ascii.eqb c DQUOTE then set_state IN_QUOTED_FIELD t
  else if is_delimiter c then set_state START_FIELD (END_FIELD t)
  else set_state IN_FIELD (PUSH_CHAR c t).

(** At the start of a record an empty line is skipped, and so is a line
    of blanks: the blanks are kept in the field until the line shows
    what it is. *)
Definition start_record_step (t : tokenizer) (c : ascii) : tokenizer :=
  if Ascii.eqb c LF then t
  else if Ascii.eqb c CR then set_state EAT_CRNL_NOP t
  else if is_whitespace c then set_state WHITESPACE_LINE (PUSH_CHAR c t)
  else start_field_step t c.

Definition step (t : tokenizer) (c : ascii) : tokenizer :=
  match t.(state) with
  | START_RECORD => start_record_step t c
  | START_FIELD => start_field_step t c
  | IN_FIELD => in_field_step t c
  | IN_QUOTED_FIELD =>
      if Ascii.eqb c DQUOTE then set_state QUOTE_IN_QUOTED_FIELD t
      else PUSH_CHAR c t
  | QUOTE_IN_QUOTED_FIELD =>
      if Ascii.eqb c DQUOTE then set_state IN_QUOTED_FIELD (PUSH_CHAR c t)
      else if is_delimiter c then set_state START_FIELD (END_FIELD t)
      else if Ascii.eqb c LF then END_LINE (END_FIELD t)
      else if Ascii.eqb c CR then set_state EAT_CRNL (END_FIELD t)
      else set_state IN_FIELD (PUSH_CHAR c t)
  | WHITESPACE_LINE =>
      if Ascii.eqb c LF then drop_field START_RECORD t
      else if Ascii.eqb c CR then drop_field EAT_CRNL_NOP t
      else if is_whitespace c then PUSH_CHAR c t
      else in_field_step (set_state IN_FIELD t) c
  | EAT_CRNL =>
      if Ascii.eqb c LF then END_LINE t
      else if is_delimiter c then set_state START_FIELD (END_FIELD (END_LINE t))
      else start_record_step (END_LINE t) c
  | EAT_CRNL_NOP =>
      if Ascii.eqb c LF || is_delimiter c then set_state START_RECORD t
      else start_record_step (set_state START_RECORD t) c
  end.

Fixpoint tokenize_bytes (s : string) (t : tokenizer) : tokenizer :=
  match s with
  | EmptyString => t
  | String c rest => tokenize_bytes rest (step t c)
  end.

Definition handle_eof (t : tokenizer) : result (list (list string)) :=
  match t.(state) with
  | START_RECORD | WHITESPACE_LINE | EAT_CRNL_NOP => Ok (rev t.(records))
  | IN_QUOTED_FIELD =>
      Raise (ParserError "Error tokenizing data. C error: EOF inside string")
  | IN_FIELD | START_FIELD | QUOTE_IN_QUOTED_FIELD =>
      Ok (rev (END_LINE (END_FIELD t)).(records))
  | EAT_CRNL => Ok (rev (END_LINE t).(records))
  end.

Definition tokenize (s : string) : result (list (list string)) :=
  handle_eof (tokenize_bytes s
    {| state := START_RECORD; field := []; record := []; records := [] |}).

(** The header: an empty name becomes [Unnamed: i], and a repeated name
    gets the first suffix [.k] that is still free (the loop of
    [TextReader._get_header]; named columns are treated before unnamed
    ones). *)
Definition unnamed (i : nat) : string := "Unnamed: " ++ string_of_nat i.

Fixpoint count_of (col : string) (counts : list (string * nat)) : nat :=
  match counts with
  | [] => 0
  | (k, n) :: rest => if String.eqb col k then n else count_of col rest
  end.

Fixpoint set_nth {A} (i : nat) (v : A) (l : list A) : list A :=
  match l, i with
  | [], _ => []
  | _ :: rest, O => v :: rest
  | x :: rest, S j => x :: set_nth j v rest
  end.

Definition mem (s : string) (l : list string) : bool := existsb (String.eqb s) l.

(** [while cur_count > 0: ...]; the fuel bounds the iterations. *)
Fixpoint dedup_loop (fuel : nat) (old_col col : string) (cur_count : nat)
    (this_header : list string) (counts : list (string * nat))
    : string * nat * list (string * nat) :=
  match cur_count, fuel with
  | S _, S fuel' =>
      let counts' := (old_col, cur_count + 1) :: counts in
      let col' := old_col ++ "." ++ string_of_nat cur_count in
      if mem col' this_header
      then dedup_loop fuel' old_col col' (cur_count + 1) this_header counts'
      else dedup_loop fuel' old_col col' (count_of col' counts') this_header counts'
  | _, _ => (col, cur_count, counts)
  end.

Definition dedup_step (st : list string * list (string * nat)) (i : nat)
    : list string * list (string * nat) :=
  let (this_header, counts) := st in
  let old_col := nth i this_header "" in
  match dedup_loop (2 * List.length this_header + 2) old_col old_col
                   (count_of old_col counts) this_header counts with
  | (col, cur_count, counts') =>
      (set_nth i col this_header, (col, cur_count + 1) :: counts')
  end.

Definition header_names (fields : list string) : list string :=
  let idx := seq 0 (List.length fields) in
  let is_unnamed i := String.eqb (nth i fields "") "" in
  let this_header :=
    map (fun i => if is_unnamed i then unnamed i else nth i fields "") idx in
  let col_loop_order :=
    (filter (fun i => negb (is_unnamed i)) idx ++ filter is_unnamed idx)%list in
  fst (fold_left dedup_step col_loop_order (this_header, [])).

(** The data rows against the header: a short row is completed with
    empty fields, a long one is an error. *)
Fixpoint check_rows (ncols : nat) (first : bool) (rows : list (list string))
    : result (list (list string)) :=
  match rows with
  | [] => Ok []
  | r :: rest =>
      if Nat.ltb ncols (List.length r) then
        Raise (if first
               then OutsideModel "first data row longer than the header"
               else ParserError "Error tokenizing data. C error: too many fields")
      else
        rest' <- check_rows ncols false rest ;;
        Ok ((r ++ repeat "" (ncols - List.length r))%list :: rest')
  end.

(** The default [na_values]. *)
Definition na_values : list string :=
  [""; "#N/A"; "#N/A N/A"; "#NA"; "-1.#IND"; "-1.#QNAN"; "-NaN"; "-nan";
   "1.#IND"; "1.#QNAN"; "<NA>"; "N/A"; "NA"; "NULL"; "NaN"; "None";
   "n/a"; "nan"; "null"].

Definition is_na (s : string) : bool := mem s na_values.

Definition isspace_ascii (c : ascii) : bool :=
  Ascii.eqb c SPACE || in_range 9 13 c.

Definition isdigit_ascii (c : ascii) : bool := in_range 48 57 c.

Fixpoint lstrip (s : string) : string :=
  match s with
  | String c rest => if isspace_ascii c then lstrip rest else s
  | EmptyString => ""
  end.

Fixpoint take_digits (s : string) : string * string :=
  match s with
  | String c rest =>
      if isdigit_ascii c
      then let (ds, rest') := take_digits rest in (String c ds, rest')
      else ("", s)
  | EmptyString => ("", "")
  end.

Fixpoint Z_of_digits (s : string) (acc : Z) : Z :=
  match s with
  | String c rest => Z_of_digits rest (10 * acc + Z.of_nat (byte c - 48))
  | EmptyString => acc
  end.

Definition take_sign (s : string) : bool * string :=
  match s with
  | String c rest =>
      if Ascii.eqb c "-" then (true, rest)
      else if Ascii.eqb c "+" then (false, rest)
      else (false, s)
  | EmptyString => (false, "")
  end.

Definition signed (neg : bool) (z : Z) : Z := if neg then (- z)%Z else z.

(** [str_to_int64], before its range check: blanks, a sign, digits,
    blanks. *)
Definition parse_int (s : string) : option Z :=
  let (neg, s1) := take_sign (lstrip s) in
  let (ds, rest) := take_digits s1 in
  if String.eqb ds "" then None
  else if String.eqb (lstrip rest) "" then Some (signed neg (Z_of_digits ds 0))
  else None.

Definition lower (c : ascii) : ascii :=
  if in_range 65 90 c then ascii_of_nat (byte c + 32) else c.

Fixpoint lowercase (s : string) : string :=
  match s with
  | String c rest => String (lower c) (lowercase rest)
  | EmptyString => ""
  end.

(** The exact value of [m * 10 ^ e]. *)
Definition scale10 (m e : Z) : Q :=
  if (0 <=? e)%Z then inject_Z (m * 10 ^ e)
  else Qmake m (Z.to_pos (10 ^ (- e))).

Definition take_exponent (s : string) : option (Z * string) :=
  match s with
  | String c rest =>
      if Ascii.eqb (lower c) "e" then
        let (neg, s1) := take_sign rest in
        let (ds, rest') := take_digits s1 in
        if String.eqb ds "" then None
        else Some (signed neg (Z_of_digits ds 0), rest')
      else Some (0%Z, s)
  | EmptyString => Some (0%Z, "")
  end.

(** [xstrtod] and the spellings of the infinities: blanks, a sign,
    digits with an optional point, an optional exponent, blanks. *)
Definition parse_float (s : string) : option f64 :=
  let w := lowercase s in
  if mem w ["inf"; "+inf"; "infinity"; "+infinity"] then Some PInf
  else if mem w ["-inf"; "-infinity"] then Some NInf
  else
    let (neg, s1) := take_sign (lstrip s) in
    let (ip, r1) := take_digits s1 in
    let (fp, r2) :=
      match r1 with
      | String c rest => if Ascii.eqb c "." then take_digits rest else ("", r1)
      | EmptyString => ("", "")
      end in
    if String.eqb (ip ++ fp) "" then None
    else
      match take_exponent r2 with
      | None => None
      | Some (e, r3) =>
          if String.eqb (lstrip r3) "" then
            Some (f64_of_Q (scale10 (signed neg (Z_of_digits (ip ++ fp) 0))
                                    (e - Z.of_nat (String.length fp))))
          else None
      end.

Definition parse_bool (s : string) : option bool :=
  if mem s ["True"; "TRUE"; "true"] then Some true
  else if mem s ["False"; "FALSE"; "false"] then Some false
  else None.

Fixpoint all_some {A} (l : list (option A)) : option (list A) :=
  match l with
  | [] => Some []
  | Some a :: rest =>
      match all_some rest with
      | Some rest' => Some (a :: rest')
      | None => None
      end
  | None :: _ => None
  end.

Definition fits_int64 (z : Z) : bool :=
  (int64_min <=? z)%Z && (z <=? int64_max)%Z.

(** The dtype of a column of fields, tried in the order int64, float64,
    bool, object.  A column of a frame without rows is an object
    column. *)
Definition infer_column (cells : list string) : result Column :=
  let no_na := forallb (fun s => negb (is_na s)) cells in
  let as_float s := if is_na s then Some NaN else parse_float s in
  match cells with
  | [] => Ok (ObjectCol [])
  | _ =>
      match (if no_na then all_some (map parse_int cells) else None) with
      | Some zs =>
          if forallb fits_int64 zs then Ok (Int64Col zs)
          else Raise (OutsideModel "integer beyond int64")
      | None =>
          match all_some (map as_float cells) with
          | Some fs => Ok (Float64Col fs)
          | None =>
              match (if no_na then all_some (map parse_bool cells) else None) with
              | Some bs => Ok (BoolCol bs)
              | None =>
                  Ok (ObjectCol (map (fun s => if is_na s then None else Some s) cells))
              end
          end
      end
  end.

Fixpoint infer_columns (names : list string) (j : nat) (rows : list (list string))
    : result (list (string * Column)) :=
  match names with
  | [] => Ok []
  | name :: names' =>
      c <- infer_column (map (fun r => nth j r "") rows) ;;
      rest <- infer_columns names' (S j) rows ;;
      Ok ((name, c) :: rest)
  end.

(** [pd.read_csv(io.BytesIO(file_bytes))] *)
Definition read_csv (file_bytes : string) : result DataFrame :=
  if negb (utf8_valid file_bytes) then Raise UnicodeDecodeError
  else
    rows <- tokenize file_bytes ;;
    match rows with
    | [] => Raise (EmptyDataError "No columns to parse from file")
    | header :: data =>
        let names := header_names header in
        data' <- check_rows (List.length names) true data ;;
        cols <- infer_columns names 0 data' ;;
        Ok {| index_len := List.length data'; columns := cols |}
    end.

End Pandas.

(* ================================================================== *)
(** ** Python objects *)

Module PyObj.

(** The values [json.loads] returns, and the numpy scalars that the
    statistics hold. *)
Inductive pyobj : Type :=
| PyNone
| PyBool (b : bool)
| PyInt (z : Z)
| PyFloat (x : f64)
| PyStr (s : string)
| PyNumpy (n : num)
| PyList (items : list pyobj)
| PyDict (items : list (string * pyobj)).

(** A [dict] with string keys, in insertion order. *)
Fixpoint dict_get {V} (key : string) (d : list (string * V)) : option V :=
  match d with
  | [] => None
  | (k, v) :: rest => if String.eqb key k then Some v else dict_get key rest
  end.

(** [d[key] = v]: a known key keeps its place. *)
Fixpoint dict_set {V} (key : string) (v : V) (d : list (string * V))
    : list (string * V) :=
  match d with
  | [] => [(key, v)]
  | (k, v') :: rest =>
      if String.eqb key k then (k, v) :: rest else (k, v') :: dict_set key v rest
  end.

Definition dict_keys {V} (d : list (string * V)) : list string := map fst d.

(** [o.get(key, default)]: only a dict has the method. *)
Definition py_get (o : pyobj) (key : string) (default : pyobj) : result pyobj :=
  match o with
  | PyDict items =>
      Ok (match dict_get key items with
          | Some v => v
          | None => default
          end)
  | _ => Raise (AttributeError "object has no attribute 'get'")
  end.

End PyObj.
Export PyObj.

(* ================================================================== *)
(** ** app/ingestion/loader.py *)

Module Loader.
Import Pandas.

Definition load_csv_from_bytes (file_bytes : string) : result DataFrame :=
  df <- read_csv file_bytes ;;
  Ok df.

Definition validate_dataframe (df : DataFrame) : result bool :=
  if empty df then Raise (ValueError "Empty dataframe")
  else Ok true.

End Loader.

(* ================================================================== *)
(** ** app/processing/aggregator.py *)

Module Aggregator.
Import Pandas.

(** The inner dict [{"mean": .., "sum": .., "min": .., "max": ..}]. *)
Record ColumnStatistics : Type := {
  st_mean : num;
  st_sum : num;
  st_min : num;
  st_max : num
}.

Definition StatisticsReport : Type := list (string * ColumnStatistics).

Definition column_stats (df : DataFrame) (col : string) : result ColumnStatistics :=
  m <- (s <- getitem df col ;; series_mean s) ;;
  t <- (s <- getitem df col ;; series_sum s) ;;
  lo <- (s <- getitem df col ;; series_min s) ;;
  hi <- (s <- getitem df col ;; series_max s) ;;
  Ok {| st_mean := m; st_sum := t; st_min := lo; st_max := hi |}.

Definition aggregate_data (df : DataFrame) : result StatisticsReport :=
  let numeric_cols := column_names (select_dtypes [float64; int64] df) in
  fold_left
    (fun acc col =>
       summary_stats <- acc ;;
       st <- column_stats df col ;;
       Ok (dict_set col st summary_stats))
    numeric_cols (Ok []).

(** The statistics as the Python object that [str] renders. *)
Definition stats_obj (stats : StatisticsReport) : pyobj :=
  PyDict (map (fun ks =>
                 (fst ks,
                  PyDict [("mean", PyNumpy (snd ks).(st_mean));
                          ("sum", PyNumpy (snd ks).(st_sum));
                          ("min", PyNumpy (snd ks).(st_min));
                          ("max", PyNumpy (snd ks).(st_max))]))
              stats).

Section Context.

Variable format_float : list f64 -> f64 -> string.
Variable py_str : pyobj -> string.

Definition prepare_context_for_ai (df : DataFrame) (stats : StatisticsReport)
    : string :=
  let head_data := to_string format_float (head 5 df) in
  let stats_string := py_str (stats_obj stats) in
  "Data Head:" ++ nl ++ head_data ++ nl ++ nl ++ "Statistics:" ++ nl ++ stats_string.

End Context.

End Aggregator.

(* ================================================================== *)
(** ** app/main.py *)

Module Main.
Import Pandas Loader Aggregator.

Record InsightResult : Type := {
  summary_text : string;
  score : pyobj
}.

(** [Report(filename=.., total_rows=.., summary_text=.., insight_score=..)] *)
Record Report : Type := {
  filename : string;
  total_rows : nat;
  report_summary_text : string;
  insight_score : pyobj
}.

(** What leaves the process: the call of the insight service and the
    operations on the database session. *)
Inductive event : Type :=
| GenerateInsights (context : string)
| DbAdd (r : Report)
| DbCommit
| DbRefresh.

Record Response : Type := {
  status : string;
  report_id : Z;
  insights : string
}.

(** A computation that may raise and that records the events it
    causes, also when it raises. *)
Definition io (A : Type) : Type := list event -> result A * list event.

Definition io_ret {A} (a : A) : io A := fun tr => (Ok a, tr).

Definition io_bind {A B} (m : io A) (k : A -> io B) : io B :=
  fun tr =>
    match m tr with
    | (Ok a, tr') => k a tr'
    | (Raise e, tr') => (Raise e, tr')
    end.

Definition io_lift {A} (r : result A) : io A := fun tr => (r, tr).

Definition io_emit {A} (ev : event) (r : result A) : io A :=
  fun tr => (r, (tr ++ [ev])%list).

(** [try: m except Exception as e: h e] *)
Definition io_catch {A} (m : io A) (h : exn -> io A) : io A :=
  fun tr =>
    match m tr with
    | (Ok a, tr') => (Ok a, tr')
    | (Raise e, tr') => h e tr'
    end.

Notation "x <~ c1 ;; c2" := (io_bind c1 (fun x => c2))
  (at level 61, c1 at next level, right associativity).

Section Handler.

(** The Python runtime. *)
Variable json_loads : string -> result pyobj.
Variable py_str : pyobj -> string.
Variable format_float : list f64 -> f64 -> string.

(** The collaborators: the insight service, and the database, which
    gives the identifier of the stored report or fails. *)
Variable generate_insights : string -> result string.
Variable db_store : Report -> result Z.

(** Lines 76 to 82: the inner [try] of the handler. *)
Definition normalize (ai_response : string) : result InsightResult :=
  try_except
    (insights_json <- json_loads ai_response ;;
     let summary_text := py_str insights_json in
     score <- py_get insights_json "overall_score" (PyFloat fzero) ;;
     Ok {| summary_text := summary_text; score := score |})
    (Ok {| summary_text := ai_response; score := PyFloat (f64_of_Q 50) |}).

Definition upload_report (contents file_name : string) : io Response :=
  io_catch
    (df <~ io_lift (load_csv_from_bytes contents) ;;
     _ <~ io_lift (validate_dataframe df) ;;
     stats <~ io_lift (aggregate_data df) ;;
     let context := prepare_context_for_ai format_float py_str df stats in
     ai_response <~ io_emit (GenerateInsights context) (generate_insights context) ;;
     insight <~ io_lift (normalize ai_response) ;;
     let new_report :=
       {| filename := file_name;
          total_rows := len df;
          report_summary_text := insight.(summary_text);
          insight_score := insight.(score) |} in
     _ <~ io_emit (DbAdd new_report) (Ok tt) ;;
     id <~ io_emit DbCommit (db_store new_report) ;;
     _ <~ io_emit DbRefresh (Ok tt) ;;
     io_ret {| status := "success"; report_id := id;
               insights := insight.(summary_text) |})
    (fun e => io_lift (Raise (HTTPException 500 (str_exn e)))).

End Handler.

End Main.

(* ================================================================== *)
(** ** app/database/connection.py *)

Module Connection.

(** What [get_db] does with the session factory and with the session
    it got from it.  Neither call is taken to raise. *)
Inductive session_event : Type :=
| SessionLocal
| SessionClose.

(** The generator object: not started, suspended at its [yield],
    finished. *)
Inductive gen_state : Type :=
| Created
| Suspended
| Finished.

(** What the consumer of a generator can do with it: [next(g)],
    [g.throw(e)], [g.close()]. *)
Inductive gen_op : Type :=
| Next
| Throw (e : exn)
| GenClose.

(** What the consumer gets back: the yielded session, StopIteration,
    the exception that leaves the generator, or the plain return of
    [close]. *)
Inductive gen_result : Type :=
| Yielded
| StopIteration
| Raised (e : exn)
| Returned.

(** [get_db]: [db = SessionLocal()], then [yield db] inside a [try]
    whose [finally] closes the session.  Before the first [next] the
    body has not run; at the [yield], every way of resuming goes
    through the [finally]. *)
Definition get_db (st : gen_state) (op : gen_op)
    : gen_state * gen_result * list session_event :=
  match st, op with
  | Created, Next => (Suspended, Yielded, [SessionLocal])
  | Created, Throw e => (Finished, Raised e, [])
  | Created, GenClose => (Finished, Returned, [])
  | Suspended, Next => (Finished, StopIteration, [SessionClose])
  | Suspended, Throw e => (Finished, Raised e, [SessionClose])
  | Suspended, GenClose => (Finished, Returned, [SessionClose])
  | Finished, Next => (Finished, StopIteration, [])
  | Finished, Throw e => (Finished, Raised e, [])
  | Finished, GenClose => (Finished, Returned, [])
  end.

(** A consumer's successive operations on one generator. *)
Fixpoint drive (st : gen_state) (ops : list gen_op)
    : gen_state * list session_event :=
  match ops with
  | [] => (st, [])
  | op :: rest =>
      match get_db st op with
      | (st', _, evs) =>
          match drive st' rest with
          | (st'', evs') => (st'', (evs ++ evs')%list)
          end
      end
  end.

End Connection.

(* ================================================================== *)
(** ** Instances of the runtime, for the examples

    The statements below hold for every [json.loads], [str] and float
    formatter.  The examples run them with the small instances of this
    module: a reader of JSON texts and a plain printer. *)

Module Instances.
Import Pandas.

(** A float64 by its exact value: [3.0], [185/2], [nan], [inf]. *)
Definition exact_repr (x : f64) : string :=
  match x with
  | NaN => "nan"
  | PInf => "inf"
  | NInf => "-inf"
  | Fin q =>
      if Pos.eqb (Qden q) 1 then string_of_Z (Qnum q) ++ ".0"
      else string_of_Z (Qnum q) ++ "/" ++ string_of_Z (Zpos (Qden q))
  end.

Definition plain_format_float (_ : list f64) (x : f64) : string :=
  String SPACE (exact_repr x).

Fixpoint plain_str (o : pyobj) : string :=
  match o with
  | PyNone => "None"
  | PyBool b => if b then "True" else "False"
  | PyInt z => string_of_Z z
  | PyFloat x => exact_repr x
  | PyStr s => "'" ++ s ++ "'"
  | PyNumpy (I64 z) => string_of_Z z
  | PyNumpy (F64 x) => exact_repr x
  | PyList items => "[" ++ join ", " (map plain_str items) ++ "]"
  | PyDict items =>
      "{" ++ join ", "
               (map (fun kv => match kv with
                               | (k, v) => "'" ++ k ++ "': " ++ plain_str v
                               end) items)
          ++ "}"
  end.

(** *** A reader of JSON texts *)

Fixpoint skip_ws (s : string) : string :=
  match s with
  | String c rest => if isspace_ascii c then skip_ws rest else s
  | EmptyString => ""
  end.

(** The characters of a string literal after its opening quote. *)
Fixpoint read_string (s : string) : option (string * string) :=
  match s with
  | EmptyString => None
  | String c rest =>
      if Ascii.eqb c DQUOTE then Some ("", rest)
      else if Ascii.eqb c BACKSLASH then
        match rest with
        | String e rest' =>
            let unescaped :=
              if Ascii.eqb e "n" then Some LF
              else if Ascii.eqb e "t" then Some TAB
              else if Ascii.eqb e "r" then Some CR
              else if Ascii.eqb e DQUOTE || Ascii.eqb e BACKSLASH || Ascii.eqb e "/"
              then Some e else None in
            match unescaped, read_string rest' with
            | Some u, Some (str, rest'') => Some (String u str, rest'')
            | _, _ => None
            end
        | EmptyString => None
        end
      else
        match read_string rest with
        | Some (str, rest') => Some (String c str, rest')
        | None => None
        end
  end.

(** A number: an integer, or a float when it has a fraction or an
    exponent. *)
Definition read_number (s : string) : option (pyobj * string) :=
  let (neg, s1) :=
    match s with
    | String c rest => if Ascii.eqb c "-" then (true, rest) else (false, s)
    | EmptyString => (false, "")
    end in
  let (ip, r1) := take_digits s1 in
  if String.eqb ip "" then None
  else
    let (fp, r2) :=
      match r1 with
      | String c rest => if Ascii.eqb c "." then take_digits rest else ("", r1)
      | EmptyString => ("", "")
      end in
    let has_exp :=
      match r2 with
      | String c _ => Ascii.eqb (lower c) "e"
      | EmptyString => false
      end in
    match take_exponent r2 with
    | None => None
    | Some (e, r3) =>
        if String.eqb fp "" && negb has_exp
        then Some (PyInt (signed neg (Z_of_digits ip 0)), r3)
        else Some (PyFloat (f64_of_Q (scale10 (signed neg (Z_of_digits (ip ++ fp) 0))
                                              (e - Z.of_nat (String.length fp)))),
                   r3)
    end.

Definition strip_prefix (p s : string) : option string :=
  if String.prefix p s
  then Some (String.substring (String.length p) (String.length s - String.length p) s)
  else None.

Fixpoint read_value (fuel : nat) (s : string) : option (pyobj * string) :=
  match fuel with
  | O => None
  | S fuel' =>
      match skip_ws s with
      | EmptyString => None
      | String c rest as s' =>
          if Ascii.eqb c "{" then
            match skip_ws rest with
            | String d rest' as r =>
                if Ascii.eqb d "}" then Some (PyDict [], rest')
                else read_members fuel' r []
            | EmptyString => None
            end
          else if Ascii.eqb c "[" then
            match skip_ws rest with
            | String d rest' as r =>
                if Ascii.eqb d "]" then Some (PyList [], rest')
                else read_items fuel' r []
            | EmptyString => None
            end
          else if Ascii.eqb c DQUOTE then
            match read_string rest with
            | Some (str, rest') => Some (PyStr str, rest')
            | None => None
            end
          else
            match strip_prefix "true" s', strip_prefix "false" s', strip_prefix "null" s' with
            | Some r, _, _ => Some (PyBool true, r)
            | _, Some r, _ => Some (PyBool false, r)
            | _, _, Some r => Some (PyNone, r)
            | _, _, _ => read_number s'
            end
      end
  end

with read_members (fuel : nat) (s : string) (acc : list (string * pyobj))
    : option (pyobj * string) :=
  match fuel with
  | O => None
  | S fuel' =>
      match skip_ws s with
      | String q rest =>
          if Ascii.eqb q DQUOTE then
            match read_string rest with
            | Some (key, r1) =>
                match skip_ws r1 with
                | String colon r2 =>
                    if Ascii.eqb colon ":" then
                      match read_value fuel' r2 with
                      | Some (v, r3) =>
                          let acc' := dict_set key v acc in
                          match skip_ws r3 with
                          | String d r4 =>
                              if Ascii.eqb d "," then read_members fuel' r4 acc'
                              else if Ascii.eqb d "}" then Some (PyDict acc', r4)
                              else None
                          | EmptyString => None
                          end
                      | None => None
                      end
                    else None
                | EmptyString => None
                end
            | None => None
            end
          else None
      | EmptyString => None
      end
  end

with read_items (fuel : nat) (s : string) (acc : list pyobj)
    : option (pyobj * string) :=
  match fuel with
  | O => None
  | S fuel' =>
      match read_value fuel' s with
      | Some (v, r1) =>
          match skip_ws r1 with
          | String d r2 =>
              if Ascii.eqb d "," then read_items fuel' r2 (acc ++ [v])%list
              else if Ascii.eqb d "]" then Some (PyList (acc ++ [v])%list, r2)
              else None
          | EmptyString => None
          end
      | None => None
      end
  end.

Definition read_json (s : string) : result pyobj :=
  match read_value (S (String.length s)) s with
  | Some (v, rest) =>
      if String.eqb (skip_ws rest) "" then Ok v
      else Raise (JSONDecodeError "Extra data")
  | None => Raise (JSONDecodeError "Expecting value")
  end.

(** The two raw responses of the specification's examples. *)
Definition scored_response : string :=
  "{" ++ String DQUOTE ("overall_score" ++ String DQUOTE (": 92.5, "
      ++ String DQUOTE ("trend" ++ String DQUOTE (": "
      ++ String DQUOTE ("up" ++ String DQUOTE "}"))))).

Definition plain_response : string := "Sales are strong.".

Definition unscored_response : string :=
  "{" ++ String DQUOTE ("trend" ++ String DQUOTE (": [1, 2]}")).

(** A frame with a column of each kind; [discount] has no valid value. *)
Definition sales_frame : DataFrame :=
  {| index_len := 3;
     columns :=
       [("units", Int64Col [4; -1; 7]%Z);
        ("price", Float64Col [f64_of_Q (3 # 2); NaN; f64_of_Q (5 # 2)]);
        ("region", ObjectCol [Some "north"; None; Some "south"]);
        ("discount", Float64Col [NaN; NaN; NaN]);
        ("active", BoolCol [true; false; true])] |}.

(** A small upload, the frame it is read as and its statistics. *)
Definition small_csv : string := "a,b" ++ nl ++ "1,2" ++ nl.

Definition small_frame : DataFrame :=
  {| index_len := 1;
     columns := [("a", Int64Col [1%Z]); ("b", Int64Col [2%Z])] |}.

Definition small_stats : Aggregator.StatisticsReport :=
  [("a", {| Aggregator.st_mean := F64 (f64_of_Z 1); Aggregator.st_sum := I64 1;
            Aggregator.st_min := I64 1; Aggregator.st_max := I64 1 |});
   ("b", {| Aggregator.st_mean := F64 (f64_of_Z 2); Aggregator.st_sum := I64 2;
            Aggregator.st_min := I64 2; Aggregator.st_max := I64 2 |})].

Definition small_context : string :=
  Aggregator.prepare_context_for_ai plain_format_float plain_str small_frame small_stats.

Definition scored_insight : Main.InsightResult :=
  {| Main.summary_text := "{'overall_score': 185/2, 'trend': 'up'}";
     Main.score := PyFloat (f64_of_Q (185 # 2)) |}.

(** A service that answers the scored response, one that fails, a
    database that stores under the identifier 7 and one that fails. *)
Definition service_ok (_ : string) : result string := Ok scored_response.
Definition service_down (_ : string) : result string :=
  Raise (ServiceError "quota exceeded").
Definition db_ok (_ : Main.Report) : result Z := Ok 7%Z.
Definition db_down (_ : Main.Report) : result Z :=
  Raise (ServiceError "database is locked").

(** A response that is a JSON list, and one whose score is a word. *)
Definition list_response : string := "[1, 2]".

Definition worded_response : string :=
  "{" ++ String DQUOTE ("overall_score" ++ String DQUOTE (": "
      ++ String DQUOTE ("high" ++ String DQUOTE "}"))).

End Instances.


(* ================================================================== *)
(** ** The vocabulary of the specification *)

Module Spec.
Import Pandas.


Definition sum_f64 (vs : list f64) : f64 := fold_right fadd fzero vs.

(** The values of a float64 column that are not missing. *)
Definition valid_values (vs : list f64) : list f64 :=
  filter (fun v => negb (isnan v)) vs.

(** A numeric-typed column, as [aggregate_data] selects them. *)
Definition numeric (c : Column) : Prop :=
  dtype_of c = int64 \/ dtype_of c = float64.

(** The test that [select_dtypes(include=['float64', 'int64'])] applies
    to a labelled column. *)
Definition is_selected (nc : string * Column) : bool :=
  existsb (dtype_eqb (dtype_of (snd nc))) [float64; int64].

(** The report that the handler builds from a frame and an insight, and
    the failure it raises for an exception [e]. *)
Definition report_of (file_name : string) (df : DataFrame)
    (insight : Main.InsightResult) : Main.Report :=
  {| Main.filename := file_name;
     Main.total_rows := len df;
     Main.report_summary_text := insight.(Main.summary_text);
     Main.insight_score := insight.(Main.score) |}.

Definition failure (e : exn) : result Main.Response :=
  Raise (HTTPException 500 (str_exn e)).

(** A parsed value that is an object. *)
Definition is_dict (o : pyobj) : bool :=
  match o with
  | PyDict _ => true
  | _ => false
  end.

(** A blank character, and a text made of blank characters only. *)
Definition is_blank (c : ascii) : bool :=
  Ascii.eqb c LF || Ascii.eqb c CR || Ascii.eqb c SPACE || Ascii.eqb c TAB.

Fixpoint all_blank (s : string) : bool :=
  match s with
  | EmptyString => true
  | String c rest => is_blank c && all_blank rest
  end.

(** The tokenizer between records: nothing read so far counts. *)
Definition between_records (t : tokenizer) : Prop :=
  (t.(state) = START_RECORD \/ t.(state) = EAT_CRNL_NOP
   \/ t.(state) = WHITESPACE_LINE)
  /\ t.(record) = [] /\ t.(records) = [].

(** What the tokenizer keeps true of its records: each one read so far
    has a field, and so has the current one when only its line end is
    awaited. *)
Definition records_have_fields (t : tokenizer) : Prop :=
  Forall (fun r : list string => r <> []) t.(records)
  /\ (t.(state) = EAT_CRNL -> t.(record) <> []).

End Spec.

(* ================================================================== *)
(** * Properties *)

(** ** The model on examples *)

Example string_of_Z_examples :
  string_of_Z 0 = "0" /\ string_of_Z (-12) = "-12" /\ string_of_nat 10 = "10".
Proof. repeat split; vm_compute; reflexivity. Qed.

Example to_string_example :
  Pandas.to_string (fun _ _ => "")
    {| Pandas.index_len := 3;
       Pandas.columns := [("a", Pandas.Int64Col [1; -3; 5]%Z);
                          ("b", Pandas.ObjectCol [Some "2"; Some "4"; Some "x"])] |}
  = "   a  b" ++ nl ++ "0  1  2" ++ nl ++ "1 -3  4" ++ nl ++ "2  5  x".
Proof. vm_compute. reflexivity. Qed.

Example tokenize_example :
  Pandas.tokenize ("a,b" ++ nl ++ "1,2" ++ nl ++ nl ++ "3,"
                     ++ String DQUOTE ("x,y" ++ String DQUOTE (String CR nl)))
  = Ok [["a"; "b"]; ["1"; "2"]; ["3"; "x,y"]].
Proof. vm_compute. reflexivity. Qed.

Example read_csv_example :
  Pandas.read_csv ("a,b,a,," ++ nl ++ "1,2,x,," ++ nl ++ "3,,True,1.5e1" ++ nl ++ "-5,x")
  = Ok {| Pandas.index_len := 3;
          Pandas.columns := [("a", Pandas.Int64Col [1; 3; -5]%Z);
                             ("b", Pandas.ObjectCol [Some "2"; None; Some "x"]);
                             ("a.1", Pandas.ObjectCol [Some "x"; Some "True"; None]);
                             ("Unnamed: 3", Pandas.Float64Col [NaN; f64_of_Q 15; NaN]);
                             ("Unnamed: 4", Pandas.Float64Col [NaN; NaN; NaN])] |}.
Proof. vm_compute. reflexivity. Qed.

Example read_json_examples :
  Instances.read_json Instances.scored_response
    = Ok (PyDict [("overall_score", PyFloat (f64_of_Q (185 # 2))); ("trend", PyStr "up")])
  /\ Instances.read_json Instances.unscored_response
    = Ok (PyDict [("trend", PyList [PyInt 1; PyInt 2])])
  /\ Instances.read_json Instances.plain_response
    = Raise (JSONDecodeError "Expecting value")
  /\ Instances.read_json "[1, 2" = Raise (JSONDecodeError "Expecting value").
Proof. repeat split; vm_compute; reflexivity. Qed.

(** ** The normalization of the insight response *)

Section NormalizeFacts.
Import Main.

Variable json_loads : string -> result pyobj.
Variable py_str : pyobj -> string.

Lemma normalize_parsed_dict (raw : string) (items : list (string * pyobj)) :
  json_loads raw = Ok (PyDict items) ->
  normalize json_loads py_str raw =
    Ok {| summary_text := py_str (PyDict items);
          score := match dict_get "overall_score" items with
                   | Some v => v
                   | None => PyFloat fzero
                   end |}.
Proof.
  intros Hparse. unfold normalize. rewrite Hparse. reflexivity.
Qed.

Lemma normalize_fallback (raw : string) :
  (forall items, json_loads raw <> Ok (PyDict items)) ->
  normalize json_loads py_str raw =
    Ok {| summary_text := raw; score := PyFloat (f64_of_Q 50) |}.
Proof.
  intros Hnot. unfold normalize.
  destruct (json_loads raw) as [o | e]; [| reflexivity].
  destruct o; try reflexivity.
  exfalso. eapply Hnot. reflexivity.
Qed.

(** C1. A response that parses as an object holding "overall_score":
    92.5 gives the score 92.5 and the rendering of the parsed object as
    summary; a response that does not parse gives the response itself
    as summary and the score 50.0. *)
Theorem normalize_score_or_default (raw : string) :
  (forall items,
     json_loads raw = Ok (PyDict items) ->
     dict_get "overall_score" items = Some (PyFloat (f64_of_Q (185 # 2))) ->
     normalize json_loads py_str raw =
       Ok {| summary_text := py_str (PyDict items);
             score := PyFloat (f64_of_Q (185 # 2)) |})
  /\
  (forall e,
     json_loads raw = Raise e ->
     normalize json_loads py_str raw =
       Ok {| summary_text := raw; score := PyFloat (f64_of_Q 50) |}).
Proof.
  split.
  - intros items Hparse Hscore.
    rewrite (normalize_parsed_dict raw items Hparse), Hscore. reflexivity.
  - intros e Hfail. apply normalize_fallback.
    intros items Hparse. rewrite Hfail in Hparse. discriminate.
Qed.

(** C2. Whatever the response, the normalization returns a summary and
    a score: it never raises. *)
Theorem normalize_never_raises (raw : string) :
  exists insight, normalize json_loads py_str raw = Ok insight.
Proof.
  unfold normalize.
  destruct (json_loads raw) as [o | e]; cbn.
  - destruct (py_get o "overall_score" (PyFloat fzero)); cbn; eauto.
  - eauto.
Qed.

(** C9. A response that parses as an object without "overall_score"
    gives the score 0.0, not the default 50.0, and the rendering of the
    parsed object as summary. *)
Theorem normalize_missing_score (raw : string) (items : list (string * pyobj)) :
  json_loads raw = Ok (PyDict items) ->
  dict_get "overall_score" items = None ->
  normalize json_loads py_str raw =
    Ok {| summary_text := py_str (PyDict items); score := PyFloat (f64_of_Q 0) |}.
Proof.
  intros Hparse Hscore.
  rewrite (normalize_parsed_dict raw items Hparse), Hscore. reflexivity.
Qed.

End NormalizeFacts.

(** The two examples of the specification, on the JSON reader. *)
Lemma normalize_score_or_default_witness :
  Main.normalize Instances.read_json Instances.plain_str Instances.scored_response
    = Ok {| Main.summary_text := "{'overall_score': 185/2, 'trend': 'up'}";
            Main.score := PyFloat (f64_of_Q (185 # 2)) |}
  /\ Main.normalize Instances.read_json Instances.plain_str Instances.plain_response
    = Ok {| Main.summary_text := "Sales are strong.";
            Main.score := PyFloat (f64_of_Q 50) |}.
Proof.
  split.
  - exact (proj1 (normalize_score_or_default Instances.read_json Instances.plain_str
                    Instances.scored_response)
                 [("overall_score", PyFloat (f64_of_Q (185 # 2))); ("trend", PyStr "up")]
                 ltac:(vm_compute; reflexivity) ltac:(vm_compute; reflexivity)).
  - exact (proj2 (normalize_score_or_default Instances.read_json Instances.plain_str
                    Instances.plain_response)
                 (JSONDecodeError "Expecting value") ltac:(vm_compute; reflexivity)).
Defined.

Lemma normalize_missing_score_witness :
  Main.normalize Instances.read_json Instances.plain_str Instances.unscored_response
    = Ok {| Main.summary_text := "{'trend': [1, 2]}";
            Main.score := PyFloat (f64_of_Q 0) |}.
Proof.
  exact (normalize_missing_score Instances.read_json Instances.plain_str
           Instances.unscored_response [("trend", PyList [PyInt 1; PyInt 2])]
           ltac:(vm_compute; reflexivity) ltac:(vm_compute; reflexivity)).
Defined.

(** ** The loader and the validator *)

Section LoaderFacts.
Import Pandas Loader.

Lemma infer_columns_no_rows (names : list string) (j : nat) :
  infer_columns names j [] = Ok (map (fun n => (n, ObjectCol [])) names).
Proof.
  revert j. induction names as [| n names IH]; intros j; cbn.
  - reflexivity.
  - rewrite IH. reflexivity.
Qed.

Lemma read_csv_header_only (raw : string) (header : list string) :
  utf8_valid raw = true ->
  tokenize raw = Ok [header] ->
  read_csv raw =
    Ok {| index_len := 0;
          columns := map (fun n => (n, ObjectCol [])) (header_names header) |}.
Proof.
  intros Hutf Htok. unfold read_csv.
  rewrite Hutf, Htok. cbn.
  rewrite infer_columns_no_rows. reflexivity.
Qed.

Lemma header_only_frame_rejected (raw : string) (header : list string) :
  utf8_valid raw = true ->
  tokenize raw = Ok [header] ->
  load_csv_from_bytes raw =
    Ok {| index_len := 0;
          columns := map (fun n => (n, ObjectCol [])) (header_names header) |}
  /\ validate_dataframe
       {| index_len := 0;
          columns := map (fun n => (n, ObjectCol [])) (header_names header) |}
     = Raise (ValueError "Empty dataframe").
Proof.
  intros Hutf Htok. split.
  - unfold load_csv_from_bytes.
    rewrite (read_csv_header_only raw header Hutf Htok). reflexivity.
  - reflexivity.
Qed.

(** C4, as the code has it.  On an input that is a header row and
    nothing else, the loader does not fail: it returns the frame of the
    header's columns without a row.  It is the validator that rejects
    this frame. *)
Theorem load_header_only_is_empty_frame (raw : string) (header : list string) :
  utf8_valid raw = true ->
  tokenize raw = Ok [header] ->
  exists df,
    load_csv_from_bytes raw = Ok df
    /\ df.(index_len) = 0
    /\ df.(columns) = map (fun n => (n, ObjectCol [])) (header_names header)
    /\ validate_dataframe df = Raise (ValueError "Empty dataframe").
Proof.
  intros Hutf Htok.
  destruct (header_only_frame_rejected raw header Hutf Htok) as [Hload Hval].
  eexists. split; [exact Hload |]. cbn.
  split; [reflexivity |]. split; [reflexivity | exact Hval].
Qed.

(** C5, as the code has it.  [df.empty] holds as soon as one axis has
    length 0, so the validator fails exactly on a frame without rows or
    without columns. *)
Theorem validate_dataframe_rejects_empty_axis (df : DataFrame) :
  (df.(index_len) = 0 \/ df.(columns) = [] ->
   validate_dataframe df = Raise (ValueError "Empty dataframe"))
  /\
  (df.(index_len) <> 0 -> df.(columns) <> [] ->
   validate_dataframe df = Ok true).
Proof.
  unfold validate_dataframe, empty.
  destruct df as [n cols]; cbn. split.
  - intros [-> | ->]; cbn; [reflexivity |].
    rewrite orb_true_r. reflexivity.
  - intros Hn Hc.
    destruct n as [| n]; [contradiction |].
    destruct cols as [| c cols]; [contradiction |].
    reflexivity.
Qed.

End LoaderFacts.

(** The header [a,b] alone: the loader returns a frame. *)
Lemma load_header_only_counterexample :
  Loader.load_csv_from_bytes ("a,b" ++ nl)
  = Ok {| Pandas.index_len := 0;
          Pandas.columns := [("a", Pandas.ObjectCol []); ("b", Pandas.ObjectCol [])] |}.
Proof. vm_compute. reflexivity. Qed.

Lemma load_header_only_is_empty_frame_witness :
  exists df,
    Loader.load_csv_from_bytes ("a,b" ++ nl) = Ok df
    /\ df.(Pandas.index_len) = 0
    /\ df.(Pandas.columns)
       = map (fun n => (n, Pandas.ObjectCol [])) (Pandas.header_names ["a"; "b"])
    /\ Loader.validate_dataframe df = Raise (ValueError "Empty dataframe").
Proof.
  exact (load_header_only_is_empty_frame ("a,b" ++ nl) ["a"; "b"]
           ltac:(vm_compute; reflexivity) ltac:(vm_compute; reflexivity)).
Defined.

(** Three rows and no column: the validator fails. *)
Lemma validate_rows_without_columns_counterexample :
  Loader.validate_dataframe {| Pandas.index_len := 3; Pandas.columns := [] |}
  = Raise (ValueError "Empty dataframe").
Proof. reflexivity. Qed.

Lemma validate_dataframe_rejects_empty_axis_witness :
  Loader.validate_dataframe {| Pandas.index_len := 0;
                               Pandas.columns := [("a", Pandas.ObjectCol [])] |}
    = Raise (ValueError "Empty dataframe")
  /\ Loader.validate_dataframe {| Pandas.index_len := 1;
                                  Pandas.columns := [("a", Pandas.Int64Col [7%Z])] |}
    = Ok true.
Proof.
  split.
  - exact (proj1 (validate_dataframe_rejects_empty_axis
                    {| Pandas.index_len := 0;
                       Pandas.columns := [("a", Pandas.ObjectCol [])] |})
                 (or_introl eq_refl)).
  - exact (proj2 (validate_dataframe_rejects_empty_axis
                    {| Pandas.index_len := 1;
                       Pandas.columns := [("a", Pandas.Int64Col [7%Z])] |})
                 ltac:(discriminate) ltac:(discriminate)).
Defined.

(** ** The handler *)

Section HandlerFacts.
Import Pandas Loader Aggregator Main.

Variable json_loads : string -> result pyobj.
Variable py_str : pyobj -> string.
Variable format_float : list f64 -> f64 -> string.
Variable generate_insights : string -> result string.
Variable db_store : Report -> result Z.

Let upload := upload_report json_loads py_str format_float generate_insights db_store.

Lemma upload_load_fails (contents file_name : string) (tr : list event) (e : exn) :
  load_csv_from_bytes contents = Raise e ->
  upload contents file_name tr = (Raise (HTTPException 500 (str_exn e)), tr).
Proof.
  intros Hload. unfold upload, upload_report, io_catch, io_bind, io_lift.
  rewrite Hload. reflexivity.
Qed.

Lemma upload_validate_fails (contents file_name : string) (tr : list event)
    (df : DataFrame) (e : exn) :
  load_csv_from_bytes contents = Ok df ->
  validate_dataframe df = Raise e ->
  upload contents file_name tr = (Raise (HTTPException 500 (str_exn e)), tr).
Proof.
  intros Hload Hval. unfold upload, upload_report, io_catch, io_bind, io_lift.
  rewrite Hload, Hval. reflexivity.
Qed.

Lemma upload_aggregate_fails (contents file_name : string) (tr : list event)
    (df : DataFrame) (ok : bool) (e : exn) :
  load_csv_from_bytes contents = Ok df ->
  validate_dataframe df = Ok ok ->
  aggregate_data df = Raise e ->
  upload contents file_name tr = (Raise (HTTPException 500 (str_exn e)), tr).
Proof.
  intros Hload Hval Hagg. unfold upload, upload_report, io_catch, io_bind, io_lift.
  rewrite Hload, Hval, Hagg. reflexivity.
Qed.

(** C6. An upload that is a header row and nothing else fails with no
    event recorded: the insight service has not been called and the
    database not touched.  The same holds whenever the loader, the
    validator or the aggregator raises (the context builder is a total
    function of its arguments). *)
Theorem upload_fails_before_collaborators
    (contents file_name : string) (tr : list event) :
  (forall header,
     utf8_valid contents = true ->
     tokenize contents = Ok [header] ->
     upload contents file_name tr
       = (Raise (HTTPException 500 "Empty dataframe"), tr))
  /\
  (forall e,
     load_csv_from_bytes contents = Raise e
     \/ (exists df, load_csv_from_bytes contents = Ok df
                    /\ validate_dataframe df = Raise e)
     \/ (exists df ok, load_csv_from_bytes contents = Ok df
                       /\ validate_dataframe df = Ok ok
                       /\ aggregate_data df = Raise e) ->
     upload contents file_name tr
       = (Raise (HTTPException 500 (str_exn e)), tr)).
Proof.
  split.
  - intros header Hutf Htok.
    destruct (header_only_frame_rejected contents header Hutf Htok)
      as [Hload Hval].
    apply (upload_validate_fails _ _ _ _ _ Hload Hval).
  - intros e [Hload | [(df & Hload & Hval) | (df & ok & Hload & Hval & Hagg)]].
    + apply upload_load_fails; assumption.
    + eapply upload_validate_fails; eassumption.
    + eapply upload_aggregate_fails; eassumption.
Qed.

End HandlerFacts.

(** The header-only upload and the empty upload, with a service and a
    database that would answer. *)
Lemma upload_fails_before_collaborators_witness :
  Main.upload_report Instances.read_json Instances.plain_str
      Instances.plain_format_float (fun _ => Ok Instances.scored_response)
      (fun _ => Ok 1%Z) ("a,b" ++ nl) "report.csv" []
    = (Raise (HTTPException 500 "Empty dataframe"), [])
  /\ Main.upload_report Instances.read_json Instances.plain_str
      Instances.plain_format_float (fun _ => Ok Instances.scored_response)
      (fun _ => Ok 1%Z) "" "report.csv" []
    = (Raise (HTTPException 500 "No columns to parse from file"), []).
Proof.
  split.
  - exact (proj1 (upload_fails_before_collaborators Instances.read_json
                    Instances.plain_str Instances.plain_format_float
                    (fun _ => Ok Instances.scored_response) (fun _ => Ok 1%Z)
                    ("a,b" ++ nl) "report.csv" [])
                 ["a"; "b"] ltac:(vm_compute; reflexivity) ltac:(vm_compute; reflexivity)).
  - exact (proj2 (upload_fails_before_collaborators Instances.read_json
                    Instances.plain_str Instances.plain_format_float
                    (fun _ => Ok Instances.scored_response) (fun _ => Ok 1%Z)
                    "" "report.csv" [])
                 (EmptyDataError "No columns to parse from file")
                 (or_introl (eq_refl (Raise (EmptyDataError "No columns to parse from file"))))).
Defined.

(** A successful upload, for contrast: the service is called once, then
    the report is added and committed. *)
Example upload_success_trace :
  snd (Main.upload_report Instances.read_json Instances.plain_str
         Instances.plain_format_float (fun _ => Ok Instances.scored_response)
         (fun _ => Ok 1%Z) ("a,b" ++ nl ++ "1,2" ++ nl) "report.csv" [])
  = [Main.GenerateInsights
       ("Data Head:" ++ nl ++ "   a  b" ++ nl ++ "0  1  2" ++ nl ++ nl
          ++ "Statistics:" ++ nl
          ++ "{'a': {'mean': 1.0, 'sum': 1, 'min': 1, 'max': 1}, "
          ++ "'b': {'mean': 2.0, 'sum': 2, 'min': 2, 'max': 2}}");
     Main.DbAdd {| Main.filename := "report.csv"; Main.total_rows := 1;
                   Main.report_summary_text := "{'overall_score': 185/2, 'trend': 'up'}";
                   Main.insight_score := PyFloat (f64_of_Q (185 # 2)) |};
     Main.DbCommit; Main.DbRefresh].
Proof. vm_compute. reflexivity. Qed.

(** ** The end-to-end scenario *)

(** C8. The CSV [a,b / 1,2 / 3,4 / 5,x]: column [a] is read as int64
    and reported with mean 3, sum 9, min 1 and max 5; column [b], which
    holds [x], is read as text and is absent from the report. *)
Theorem scenario_mixed_column_excluded :
  Loader.load_csv_from_bytes
      ("a,b" ++ nl ++ "1,2" ++ nl ++ "3,4" ++ nl ++ "5,x" ++ nl)
    = Ok {| Pandas.index_len := 3;
            Pandas.columns :=
              [("a", Pandas.Int64Col [1; 3; 5]%Z);
               ("b", Pandas.ObjectCol [Some "2"; Some "4"; Some "x"])] |}
  /\ (df <- Loader.load_csv_from_bytes
              ("a,b" ++ nl ++ "1,2" ++ nl ++ "3,4" ++ nl ++ "5,x" ++ nl) ;;
      Aggregator.aggregate_data df)
    = Ok [("a", {| Aggregator.st_mean := F64 (f64_of_Z 3);
                   Aggregator.st_sum := I64 9;
                   Aggregator.st_min := I64 1;
                   Aggregator.st_max := I64 5 |})].
Proof. split; vm_compute; reflexivity. Qed.

(** ** Numbers *)

Section NumFacts.

Lemma mkQc_eq (p q : Q) : (p == q)%Q -> mkQc p = mkQc q.
Proof.
  intros H. unfold mkQc. apply Qc_is_canon. cbn.
  rewrite !Qred_correct. exact H.
Qed.

Lemma mkQc_this (a : Qc) : mkQc a = a.
Proof.
  unfold mkQc. apply Qc_is_canon. cbn.
  rewrite !Qred_correct. reflexivity.
Qed.

Lemma this_mkQc (q : Q) : (this (mkQc q) == q)%Q.
Proof. unfold mkQc. cbn. rewrite !Qred_correct. reflexivity. Qed.

Lemma fadd_zero_r (x : f64) : fadd x fzero = x.
Proof.
  destruct x as [| | | a]; try reflexivity.
  unfold fzero, fadd, f64_of_Q. f_equal.
  rewrite <- (mkQc_this a) at 2. apply mkQc_eq.
  rewrite this_mkQc. ring.
Qed.

Lemma fadd_comm (x y : f64) : fadd x y = fadd y x.
Proof.
  destruct x as [| | | a], y as [| | | b]; try reflexivity.
  unfold fadd, f64_of_Q. f_equal. apply mkQc_eq. ring.
Qed.

Lemma fadd_assoc (x y z : f64) : fadd (fadd x y) z = fadd x (fadd y z).
Proof.
  destruct x as [| | | a], y as [| | | b], z as [| | | c]; try reflexivity.
  unfold fadd, f64_of_Q. f_equal. apply mkQc_eq.
  rewrite !this_mkQc. ring.
Qed.

Lemma fold_left_fadd_acc (vs : list f64) (acc : f64) :
  fold_left fadd vs acc = fadd acc (fold_right fadd fzero vs).
Proof.
  revert acc. induction vs as [| v vs IH]; intros acc; cbn.
  - symmetry. apply fadd_zero_r.
  - rewrite IH. apply fadd_assoc.
Qed.

Lemma fadd_zero_l (x : f64) : fadd fzero x = x.
Proof. rewrite fadd_comm. apply fadd_zero_r. Qed.

Lemma fsum_is_sum (vs : list f64) : Pandas.fsum vs = Spec.sum_f64 vs.
Proof.
  unfold Pandas.fsum, Spec.sum_f64.
  rewrite fold_left_fadd_acc. apply fadd_zero_l.
Qed.

Lemma sum_f64_fillna (vs : list f64) :
  Spec.sum_f64 (Pandas.fillna fzero vs) = Spec.sum_f64 (Spec.valid_values vs).
Proof.
  unfold Spec.sum_f64, Pandas.fillna, Spec.valid_values.
  induction vs as [| v vs IH]; cbn; [reflexivity |].
  destruct v; cbn; rewrite IH; try reflexivity.
  apply fadd_zero_l.
Qed.



Lemma wrap64_range (z : Z) : in_int64 (wrap64 z).
Proof.
  unfold in_int64, int64_min, int64_max, wrap64.
  pose proof (Z.mod_pos_bound (z + 2 ^ 63) (2 ^ 64) ltac:(lia)). lia.
Qed.

End NumFacts.

(** ** Extrema *)

Section OrderFacts.

Lemma fle_not_nan (x y : f64) : fle x y = true -> isnan x = false /\ isnan y = false.
Proof. destruct x, y; cbn; intros H; try discriminate; split; reflexivity. Qed.

Lemma fle_refl (x : f64) : isnan x = false -> fle x x = true.
Proof.
  destruct x as [| | | a]; cbn; intros H; try discriminate; try reflexivity.
  apply Qle_bool_iff. apply Qle_refl.
Qed.

Lemma fle_trans (x y z : f64) : fle x y = true -> fle y z = true -> fle x z = true.
Proof.
  destruct x as [| | | a], y as [| | | b], z as [| | | c]; cbn;
    intros H1 H2; try discriminate; try reflexivity.
  apply Qle_bool_iff. apply Qle_bool_iff in H1, H2.
  eapply Qle_trans; eassumption.
Qed.

Lemma fle_total (x y : f64) :
  isnan x = false -> isnan y = false -> fle x y = false -> fle y x = true.
Proof.
  destruct x as [| | | a], y as [| | | b]; cbn;
    intros Hx Hy H; try discriminate; try reflexivity.
  apply Qle_bool_iff. apply Qlt_le_weak. apply Qnot_le_lt.
  intros Hle. apply Qle_bool_iff in Hle. congruence.
Qed.

Lemma fmin_lower (x y : f64) :
  isnan x = false -> isnan y = false ->
  isnan (fmin x y) = false /\ fle (fmin x y) x = true /\ fle (fmin x y) y = true.
Proof.
  intros Hx Hy. unfold fmin. destruct (fle x y) eqn:E.
  - repeat split; auto using fle_refl.
  - repeat split; auto using fle_refl, fle_total.
Qed.

Lemma fmax_upper (x y : f64) :
  isnan x = false -> isnan y = false ->
  isnan (fmax x y) = false /\ fle x (fmax x y) = true /\ fle y (fmax x y) = true.
Proof.
  intros Hx Hy. unfold fmax. destruct (fle x y) eqn:E.
  - repeat split; auto using fle_refl.
  - repeat split; auto using fle_refl, fle_total.
Qed.

Lemma fold_fmin_lower (l : list f64) (a : f64) :
  isnan a = false ->
  Forall (fun x => isnan x = false) l ->
  isnan (fold_left fmin l a) = false
  /\ fle (fold_left fmin l a) a = true
  /\ Forall (fun x => fle (fold_left fmin l a) x = true) l.
Proof.
  revert a. induction l as [| v l IH]; intros a Ha Hl; cbn.
  - repeat split; auto using fle_refl.
  - inversion Hl as [| ? ? Hv Hl']; subst.
    destruct (fmin_lower a v Ha Hv) as (Hm & Hma & Hmv).
    destruct (IH (fmin a v) Hm Hl') as (Hr & Hrm & Hrl).
    repeat split; auto.
    + eapply fle_trans; eassumption.
    + constructor; [eapply fle_trans; eassumption | assumption].
Qed.

Lemma fold_fmax_upper (l : list f64) (a : f64) :
  isnan a = false ->
  Forall (fun x => isnan x = false) l ->
  isnan (fold_left fmax l a) = false
  /\ fle a (fold_left fmax l a) = true
  /\ Forall (fun x => fle x (fold_left fmax l a) = true) l.
Proof.
  revert a. induction l as [| v l IH]; intros a Ha Hl; cbn.
  - repeat split; auto using fle_refl.
  - inversion Hl as [| ? ? Hv Hl']; subst.
    destruct (fmax_upper a v Ha Hv) as (Hm & Hma & Hmv).
    destruct (IH (fmax a v) Hm Hl') as (Hr & Hrm & Hrl).
    repeat split; auto.
    + eapply fle_trans; eassumption.
    + constructor; [eapply fle_trans; eassumption | assumption].
Qed.

Lemma fillna_not_nan (fill : f64) (vs : list f64) :
  isnan fill = false ->
  Forall (fun x => isnan x = false) (Pandas.fillna fill vs).
Proof.
  intros Hf. unfold Pandas.fillna. apply Forall_forall.
  intros x Hx. apply in_map_iff in Hx. destruct Hx as (v & <- & _).
  destruct (isnan v) eqn:E; assumption.
Qed.

Lemma in_fillna (fill v : f64) (vs : list f64) :
  In v vs -> isnan v = false -> In v (Pandas.fillna fill vs).
Proof.
  intros Hin Hv. unfold Pandas.fillna. apply in_map_iff.
  exists v. rewrite Hv. auto.
Qed.

(** The minimum that [reduce] computes over a filled column bounds
    every valid value from below. *)
Lemma reduce_fmin_lower (vs : list f64) (v : f64) :
  In v vs -> isnan v = false ->
  fle (Pandas.reduce fmin (Pandas.fillna PInf vs) NaN) v = true.
Proof.
  intros Hin Hv.
  pose proof (fillna_not_nan PInf vs eq_refl) as Hall.
  pose proof (in_fillna PInf v vs Hin Hv) as Hin'.
  destruct (Pandas.fillna PInf vs) as [| a l]; [contradiction |].
  inversion Hall as [| ? ? Ha Hl]; subst. cbn.
  destruct (fold_fmin_lower l a Ha Hl) as (_ & Hra & Hrl).
  destruct Hin' as [<- | Hin']; [assumption |].
  rewrite Forall_forall in Hrl. auto.
Qed.

Lemma reduce_fmax_upper (vs : list f64) (v : f64) :
  In v vs -> isnan v = false ->
  fle v (Pandas.reduce fmax (Pandas.fillna NInf vs) NaN) = true.
Proof.
  intros Hin Hv.
  pose proof (fillna_not_nan NInf vs eq_refl) as Hall.
  pose proof (in_fillna NInf v vs Hin Hv) as Hin'.
  destruct (Pandas.fillna NInf vs) as [| a l]; [contradiction |].
  inversion Hall as [| ? ? Ha Hl]; subst. cbn.
  destruct (fold_fmax_upper l a Ha Hl) as (_ & Hra & Hrl).
  destruct Hin' as [<- | Hin']; [assumption |].
  rewrite Forall_forall in Hrl. auto.
Qed.



End OrderFacts.

(** ** The aggregator *)

Section AggregatorFacts.
Import Pandas Aggregator.

Lemma dict_get_set_same {V} (k : string) (v : V) (d : list (string * V)) :
  dict_get k (dict_set k v d) = Some v.
Proof.
  induction d as [| [k' v'] d IH]; cbn.
  - rewrite String.eqb_refl. reflexivity.
  - destruct (String.eqb k k') eqn:E; cbn; rewrite E; auto.
Qed.

Lemma dict_get_set_other {V} (k k0 : string) (v : V) (d : list (string * V)) :
  k0 <> k -> dict_get k0 (dict_set k v d) = dict_get k0 d.
Proof.
  intros Hne. induction d as [| [k' v'] d IH]; cbn.
  - destruct (String.eqb k0 k) eqn:E; [| reflexivity].
    apply String.eqb_eq in E. contradiction.
  - destruct (String.eqb k k') eqn:E; cbn.
    + apply String.eqb_eq in E. subst k'.
      destruct (String.eqb k0 k) eqn:E0; [| reflexivity].
      apply String.eqb_eq in E0. contradiction.
    + rewrite IH. reflexivity.
Qed.

Lemma dict_keys_set_fresh {V} (k : string) (v : V) (d : list (string * V)) :
  dict_get k d = None -> dict_keys (dict_set k v d) = (dict_keys d ++ [k])%list.
Proof.
  unfold dict_keys. induction d as [| [k' v'] d IH]; cbn; intros H.
  - reflexivity.
  - destruct (String.eqb k k') eqn:E; [discriminate |].
    cbn. rewrite IH; auto.
Qed.

Lemma dict_get_none_keys {V} (k : string) (d : list (string * V)) :
  dict_get k d = None <-> ~ In k (dict_keys d).
Proof.
  unfold dict_keys. induction d as [| [k' v'] d IH]; cbn.
  - tauto.
  - destruct (String.eqb k k') eqn:E.
    + apply String.eqb_eq in E. subst. split; [discriminate | tauto].
    + apply String.eqb_neq in E. rewrite IH. split.
      * intros H [H1 | H1]; [congruence | tauto].
      * tauto.
Qed.

Lemma lookup_col_in (n : string) (c : Column) (cs : list (string * Column)) :
  NoDup (map fst cs) -> In (n, c) cs -> lookup_col n cs = Some c.
Proof.
  induction cs as [| [n' c'] cs IH]; cbn; intros Hnd Hin; [contradiction |].
  inversion Hnd as [| ? ? Hnotin Hnd']; subst.
  destruct Hin as [Heq | Hin].
  - inversion Heq; subst. rewrite String.eqb_refl. reflexivity.
  - destruct (String.eqb n n') eqn:E.
    + apply String.eqb_eq in E. subst n'. exfalso. apply Hnotin.
      apply in_map_iff. exists (n, c). auto.
    + auto.
Qed.

Lemma count_once (n : string) (names : list string) :
  NoDup names -> In n names -> List.length (filter (String.eqb n) names) = 1.
Proof.
  induction names as [| m names IH]; cbn; intros Hnd Hin; [contradiction |].
  inversion Hnd as [| ? ? Hnotin Hnd']; subst.
  destruct (String.eqb n m) eqn:E.
  - apply String.eqb_eq in E. subst m. cbn. f_equal.
    assert (H : forall l, ~ In n l -> filter (String.eqb n) l = []).
    { induction l as [| x l IHl]; cbn; intros Hl; [reflexivity |].
      destruct (String.eqb n x) eqn:Ex.
      - apply String.eqb_eq in Ex. subst x. tauto.
      - apply IHl. tauto. }
    rewrite (H names Hnotin). reflexivity.
  - apply String.eqb_neq in E.
    destruct Hin as [Heq | Hin]; [congruence | auto].
Qed.

Lemma getitem_in (df : DataFrame) (n : string) (c : Column) :
  wf_frame df -> In (n, c) df.(columns) -> getitem df n = Ok c.
Proof.
  intros [_ Hnd _] Hin. unfold getitem.
  rewrite (lookup_col_in n c _ Hnd Hin).
  unfold count_label. rewrite count_once; auto.
  unfold column_names. apply in_map_iff. exists (n, c). auto.
Qed.

Lemma series_numeric (c : Column) :
  Spec.numeric c ->
  exists s, series_mean c = Ok s.(st_mean) /\ series_sum c = Ok s.(st_sum)
            /\ series_min c = Ok s.(st_min) /\ series_max c = Ok s.(st_max).
Proof.
  intros [H | H]; destruct c as [vs | vs | vs | vs]; try discriminate.
  - destruct vs as [| v vs].
    + exists {| st_mean := F64 (fdiv_count (fsum (map f64_of_Z [])) 0);
                st_sum := I64 (wrap64 (Zsum []));
                st_min := F64 NaN; st_max := F64 NaN |}.
      repeat split.
    + exists {| st_mean := F64 (fdiv_count (fsum (map f64_of_Z (v :: vs)))
                                           (List.length (v :: vs)));
                st_sum := I64 (wrap64 (Zsum (v :: vs)));
                st_min := I64 (fold_left Z.min vs v);
                st_max := I64 (fold_left Z.max vs v) |}.
      repeat split.
  - cbn. destruct (Nat.eqb (count_valid vs) 0).
    + exists {| st_mean := F64 (fdiv_count (fsum (fillna fzero vs)) (count_valid vs));
                st_sum := F64 (fsum (fillna fzero vs));
                st_min := F64 NaN; st_max := F64 NaN |}.
      repeat split.
    + exists {| st_mean := F64 (fdiv_count (fsum (fillna fzero vs)) (count_valid vs));
                st_sum := F64 (fsum (fillna fzero vs));
                st_min := F64 (reduce fmin (fillna PInf vs) NaN);
                st_max := F64 (reduce fmax (fillna NInf vs) NaN) |}.
      repeat split.
Qed.

Lemma column_stats_in (df : DataFrame) (n : string) (c : Column) :
  wf_frame df -> In (n, c) df.(columns) -> Spec.numeric c ->
  exists s, column_stats df n = Ok s
            /\ series_mean c = Ok s.(st_mean) /\ series_sum c = Ok s.(st_sum)
            /\ series_min c = Ok s.(st_min) /\ series_max c = Ok s.(st_max).
Proof.
  intros Hwf Hin Hnum.
  destruct (series_numeric c Hnum) as (s & Hm & Ht & Hlo & Hhi).
  exists s. unfold column_stats.
  rewrite (getitem_in df n c Hwf Hin). cbn.
  rewrite Hm, Ht, Hlo, Hhi. cbn. destruct s; auto.
Qed.

Lemma is_selected_numeric (nc : string * Column) :
  Spec.is_selected nc = true <-> Spec.numeric (snd nc).
Proof.
  unfold Spec.is_selected, Spec.numeric.
  destruct nc as [n c]; destruct c; cbn; split; intros H;
    try discriminate; try reflexivity; auto;
    destruct H; discriminate.
Qed.

Lemma aggregate_fold (df : DataFrame) (l : list (string * Column))
    (acc : StatisticsReport) :
  wf_frame df ->
  (forall nc, In nc l -> In nc df.(columns) /\ Spec.numeric (snd nc)) ->
  NoDup (map fst l) ->
  (forall nc, In nc l -> dict_get (fst nc) acc = None) ->
  exists report,
    fold_left (fun acc col =>
                 summary_stats <- acc ;;
                 st <- column_stats df col ;;
                 Ok (dict_set col st summary_stats))
              (map fst l) (Ok acc) = Ok report
    /\ dict_keys report = (dict_keys acc ++ map fst l)%list
    /\ (forall k, ~ In k (map fst l) -> dict_get k report = dict_get k acc)
    /\ (forall nc, In nc l ->
          exists s, dict_get (fst nc) report = Some s
                    /\ column_stats df (fst nc) = Ok s).
Proof.
  intros Hwf. revert acc.
  induction l as [| [n c] l IH]; intros acc Hl Hnd Hfresh; cbn.
  - exists acc. rewrite app_nil_r. repeat split; auto. intros nc [].
  - inversion Hnd as [| ? ? Hnotin Hnd']; subst.
    destruct (Hl (n, c) (or_introl eq_refl)) as [Hin Hnum].
    destruct (column_stats_in df n c Hwf Hin Hnum) as (s & Hs & _).
    rewrite Hs. cbn.
    destruct (IH (dict_set n s acc)) as (report & Hfold & Hkeys & Hother & Hmine).
    + intros nc Hnc. apply Hl. right. assumption.
    + assumption.
    + intros nc Hnc. rewrite dict_get_set_other.
      * apply Hfresh. right. assumption.
      * intros Heq. apply Hnotin. rewrite <- Heq. apply in_map. assumption.
    + exists report. split; [exact Hfold |]. split; [| split].
      * rewrite Hkeys, dict_keys_set_fresh.
        -- rewrite <- app_assoc. reflexivity.
        -- apply (Hfresh (n, c)). left. reflexivity.
      * intros k Hk. rewrite Hother by tauto.
        apply dict_get_set_other. intros ->. tauto.
      * intros nc [<- | Hnc].
        -- cbn. exists s. split; [| assumption].
           rewrite Hother by assumption. apply dict_get_set_same.
        -- apply Hmine. assumption.
Qed.

Lemma NoDup_map_fst_filter {A} (f : string * A -> bool) (l : list (string * A)) :
  NoDup (map fst l) -> NoDup (map fst (filter f l)).
Proof.
  induction l as [| x l IH]; cbn; intros Hnd; [constructor |].
  inversion Hnd as [| ? ? Hnotin Hnd']; subst.
  destruct (f x); cbn; auto.
  constructor; auto.
  intros Hin. apply Hnotin.
  apply in_map_iff in Hin. destruct Hin as (y & Hy & Hin).
  apply filter_In in Hin. apply in_map_iff. exists y. tauto.
Qed.

(** The report of a well-formed frame: one entry per selected column,
    in the order of the frame, holding the four reductions of that
    column. *)
Lemma aggregate_data_entries (df : DataFrame) :
  wf_frame df ->
  exists report,
    aggregate_data df = Ok report
    /\ dict_keys report = map fst (filter Spec.is_selected df.(columns))
    /\ (forall n c, In (n, c) df.(columns) -> Spec.numeric c ->
          exists s, dict_get n report = Some s
                    /\ series_mean c = Ok s.(st_mean) /\ series_sum c = Ok s.(st_sum)
                    /\ series_min c = Ok s.(st_min) /\ series_max c = Ok s.(st_max)).
Proof.
  intros Hwf. unfold aggregate_data, select_dtypes, column_names. cbn [columns].
  destruct (aggregate_fold df (filter Spec.is_selected df.(columns)) [] Hwf)
    as (report & Hfold & Hkeys & _ & Hmine).
  - intros nc Hnc. apply filter_In in Hnc. destruct Hnc as [Hin Hsel].
    split; [assumption | apply is_selected_numeric; assumption].
  - apply NoDup_map_fst_filter. apply Hwf.
  - reflexivity.
  - exists report. split; [exact Hfold |]. split; [exact Hkeys |].
    intros n c Hin Hnum.
    destruct (Hmine (n, c)) as (s & Hget & Hstats).
    { apply filter_In. split; [assumption |]. apply is_selected_numeric. assumption. }
    destruct (column_stats_in df n c Hwf Hin Hnum) as (s' & Hs' & Hrest).
    cbn in Hstats. rewrite Hs' in Hstats. inversion Hstats; subst s'.
    exists s. split; assumption.
Qed.

End AggregatorFacts.

Section ReportFacts.
Import Pandas Aggregator.



Lemma valid_values_all_missing (vs : list f64) :
  Forall (fun v => v = NaN) vs -> Spec.valid_values vs = [].
Proof.
  unfold Spec.valid_values. induction 1 as [| v vs Hv _ IH]; cbn.
  - reflexivity.
  - subst v. cbn. assumption.
Qed.


(** C10. A float64 column whose values are all missing is reported,
    with sum 0.0 and with NaN for mean, min and max. *)
Theorem aggregate_all_missing_column (df : DataFrame) (n : string) (vs : list f64) :
  wf_frame df ->
  In (n, Float64Col vs) df.(columns) ->
  Forall (fun v => v = NaN) vs ->
  exists report,
    aggregate_data df = Ok report
    /\ dict_get n report =
         Some {| st_mean := F64 NaN; st_sum := F64 fzero;
                 st_min := F64 NaN; st_max := F64 NaN |}.
Proof.
  intros Hwf Hin Hall.
  destruct (aggregate_data_entries df Hwf) as (report & Hagg & _ & Hentries).
  exists report. split; [exact Hagg |].
  destruct (Hentries n (Float64Col vs) Hin (or_intror eq_refl))
    as (s & Hget & Hmean & Hsum & Hmin & Hmax).
  rewrite Hget. f_equal.
  assert (Hcount : count_valid vs = 0).
  { unfold count_valid. fold (Spec.valid_values vs).
    rewrite valid_values_all_missing by assumption. reflexivity. }
  assert (Hzero : fsum (fillna fzero vs) = fzero).
  { rewrite fsum_is_sum, sum_f64_fillna, valid_values_all_missing by assumption.
    reflexivity. }
  cbn in Hmean, Hsum, Hmin, Hmax.
  rewrite Hcount in Hmean, Hmin, Hmax. rewrite Hzero in Hmean, Hsum.
  cbn in Hmean, Hmin, Hmax.
  destruct s as [m t lo hi]; cbn in *. congruence.
Qed.

End ReportFacts.

Lemma sales_frame_wf : Pandas.wf_frame Instances.sales_frame.
Proof.
  constructor.
  - repeat constructor.
  - cbn. repeat constructor; cbn; intuition discriminate.
  - repeat constructor; cbn; unfold in_int64, int64_min, int64_max; lia.
Qed.



Example aggregate_sales_frame :
  Aggregator.aggregate_data Instances.sales_frame
  = Ok [("units", {| Aggregator.st_mean := F64 (f64_of_Q (10 # 3));
                     Aggregator.st_sum := I64 10;
                     Aggregator.st_min := I64 (-1);
                     Aggregator.st_max := I64 7 |});
        ("price", {| Aggregator.st_mean := F64 (f64_of_Z 2);
                     Aggregator.st_sum := F64 (f64_of_Z 4);
                     Aggregator.st_min := F64 (f64_of_Q (3 # 2));
                     Aggregator.st_max := F64 (f64_of_Q (5 # 2)) |});
        ("discount", {| Aggregator.st_mean := F64 NaN;
                        Aggregator.st_sum := F64 fzero;
                        Aggregator.st_min := F64 NaN;
                        Aggregator.st_max := F64 NaN |})].
Proof. vm_compute. reflexivity. Qed.

Lemma aggregate_all_missing_column_witness :
  exists report,
    Aggregator.aggregate_data Instances.sales_frame = Ok report
    /\ dict_get "discount" report =
         Some {| Aggregator.st_mean := F64 NaN; Aggregator.st_sum := F64 fzero;
                 Aggregator.st_min := F64 NaN; Aggregator.st_max := F64 NaN |}.
Proof.
  apply (aggregate_all_missing_column Instances.sales_frame "discount" [NaN; NaN; NaN]).
  - exact sales_frame_wf.
  - cbn. tauto.
  - repeat constructor.
Defined.

(** ** Lines of text *)

Section TextFacts.

Lemma contains_char_app (c : ascii) (a b : string) :
  contains_char c (a ++ b) = contains_char c a || contains_char c b.
Proof.
  induction a as [| d a IH]; cbn; [reflexivity |].
  rewrite IH. apply orb_assoc.
Qed.

Lemma one_line_app (a b : string) : one_line a -> one_line b -> one_line (a ++ b).
Proof.
  unfold one_line. intros Ha Hb. rewrite contains_char_app, Ha, Hb. reflexivity.
Qed.

Lemma one_line_cons (c : ascii) (s : string) :
  Ascii.eqb c LF = false -> one_line s -> one_line (String c s).
Proof. unfold one_line. cbn. intros -> ->. reflexivity. Qed.

Lemma one_line_replicate (n : nat) : one_line (replicate n SPACE).
Proof. induction n as [| n IH]; [reflexivity | apply one_line_cons; auto]. Qed.

Lemma one_line_rjust (w : nat) (s : string) : one_line s -> one_line (rjust w s).
Proof. intros H. apply one_line_app; [apply one_line_replicate | exact H]. Qed.

Lemma one_line_ljust (w : nat) (s : string) : one_line s -> one_line (ljust w s).
Proof. intros H. apply one_line_app; [exact H | apply one_line_replicate]. Qed.

Lemma one_line_escape (s : string) : one_line (escape s).
Proof.
  unfold one_line. induction s as [| c s IH]; cbn; [reflexivity |].
  repeat match goal with
         | |- context [if ?b then _ else _] => destruct b eqn:?
         end; cbn; try assumption.
  match goal with H : Ascii.eqb c _ = false |- _ => rewrite H end.
  assumption.
Qed.

Lemma one_line_uint (d : Decimal.uint) : one_line (NilEmpty.string_of_uint d).
Proof.
  induction d; cbn; try reflexivity; apply one_line_cons; auto.
Qed.

Lemma one_line_string_of_nat (n : nat) : one_line (string_of_nat n).
Proof. apply one_line_uint. Qed.

Lemma one_line_string_of_Z (z : Z) : one_line (string_of_Z z).
Proof.
  unfold string_of_Z. destruct (Z.to_int z); cbn.
  - apply one_line_uint.
  - apply one_line_cons; [reflexivity | apply one_line_uint].
Qed.

Lemma split_lines_one_line (l : string) : one_line l -> split_lines l = [l].
Proof.
  unfold one_line. induction l as [| c l IH]; cbn; intros H; [reflexivity |].
  apply orb_false_iff in H. destruct H as [Hc Hl].
  rewrite Hc, (IH Hl). reflexivity.
Qed.

Lemma split_lines_app_nl (l r : string) :
  one_line l -> split_lines (l ++ String LF r) = l :: split_lines r.
Proof.
  unfold one_line.
  induction l as [| c l IH]; cbn [split_lines append contains_char]; intros H;
    [reflexivity |].
  apply orb_false_iff in H. destruct H as [Hc Hl].
  rewrite Hc, (IH Hl). reflexivity.
Qed.

(** Text made of lines gives these lines back. *)
Lemma split_lines_join (ls : list string) :
  ls <> [] -> Forall one_line ls -> split_lines (join nl ls) = ls.
Proof.
  induction ls as [| l ls IH]; intros Hne Hall; [contradiction |].
  inversion Hall as [| ? ? Hl Hls]; subst.
  destruct ls as [| l' ls'].
  - cbn. apply split_lines_one_line. assumption.
  - change (join nl (l :: l' :: ls')) with (l ++ String LF (join nl (l' :: ls'))).
    rewrite split_lines_app_nl by assumption.
    rewrite IH; [reflexivity | discriminate | assumption].
Qed.

End TextFacts.

(** ** The rendering of a frame *)

Section RenderFacts.
Import Pandas.

Variable format_float : list f64 -> f64 -> string.
Hypothesis format_float_one_line : forall col v, one_line (format_float col v).

Lemma length_format_col (c : Column) :
  List.length (format_col format_float c) = col_len c.
Proof. destruct c; cbn; apply length_map. Qed.

Lemma length_str_column (nc : string * Column) :
  List.length (str_column format_float nc) = S (col_len (snd nc)).
Proof. unfold str_column. cbn. rewrite length_map, length_format_col. reflexivity. Qed.

Lemma length_str_index (n : nat) : List.length (str_index n) = S n.
Proof. unfold str_index. cbn. rewrite length_map, length_seq. reflexivity. Qed.

Lemma length_zip_append (a b : list string) :
  List.length (zip_append a b) = Nat.min (List.length a) (List.length b).
Proof.
  revert b. induction a as [| x a IH]; intros [| y b]; cbn; auto.
Qed.

Lemma length_adjoin (m : nat) (strcols : list (list string)) :
  strcols <> [] ->
  Forall (fun c => List.length c = m) strcols ->
  List.length (adjoin strcols) = m.
Proof.
  induction strcols as [| c rest IH]; intros Hne Hall; [contradiction |].
  inversion Hall as [| ? ? Hc Hrest]; subst.
  destruct rest as [| c' rest'].
  - reflexivity.
  - change (adjoin (c :: c' :: rest'))
      with (zip_append (pad_column c) (adjoin (c' :: rest'))).
    rewrite length_zip_append. unfold pad_column. rewrite length_map.
    rewrite IH; [apply Nat.min_id | discriminate | assumption].
Qed.

Lemma one_line_format_int (z : Z) : one_line (format_int z).
Proof.
  unfold format_int. destruct (z <? 0)%Z.
  - apply one_line_string_of_Z.
  - apply one_line_cons; [reflexivity | apply one_line_string_of_Z].
Qed.

Lemma one_line_format_col (c : Column) :
  Forall one_line (format_col format_float c).
Proof.
  apply Forall_forall. intros s Hs.
  destruct c as [vs | vs | vs | vs]; cbn in Hs;
    apply in_map_iff in Hs; destruct Hs as (v & <- & _).
  - apply one_line_format_int.
  - apply format_float_one_line.
  - destruct v; reflexivity.
  - apply one_line_cons; [reflexivity |].
    destruct v; [apply one_line_escape | reflexivity].
Qed.

Lemma one_line_str_column (nc : string * Column) :
  Forall one_line (str_column format_float nc).
Proof.
  unfold str_column. constructor.
  - apply one_line_rjust.
    destruct (is_numeric_dtype (dtype_of (snd nc))).
    + apply one_line_cons; [reflexivity | apply one_line_escape].
    + apply one_line_escape.
  - apply Forall_forall. intros s Hs.
    apply in_map_iff in Hs. destruct Hs as (v & <- & Hv).
    apply one_line_rjust.
    pose proof (one_line_format_col (snd nc)) as H.
    rewrite Forall_forall in H. auto.
Qed.

Lemma one_line_str_index (n : nat) : Forall one_line (str_index n).
Proof.
  unfold str_index. constructor; [reflexivity |].
  apply Forall_forall. intros s Hs.
  apply in_map_iff in Hs. destruct Hs as (i & <- & _).
  apply one_line_string_of_nat.
Qed.

Lemma one_line_zip_append (a b : list string) :
  Forall one_line a -> Forall one_line b -> Forall one_line (zip_append a b).
Proof.
  intros Ha. revert b. induction Ha as [| x a Hx Ha IH]; intros b Hb; cbn.
  - constructor.
  - destruct Hb as [| y b Hy Hb]; constructor.
    + apply one_line_app; assumption.
    + apply IH. assumption.
Qed.

Lemma one_line_pad_column (c : list string) :
  Forall one_line c -> Forall one_line (pad_column c).
Proof.
  intros H. unfold pad_column. apply Forall_forall. intros s Hs.
  apply in_map_iff in Hs. destruct Hs as (v & <- & Hv).
  apply one_line_ljust. rewrite Forall_forall in H. auto.
Qed.

Lemma one_line_adjoin (strcols : list (list string)) :
  Forall (Forall one_line) strcols -> Forall one_line (adjoin strcols).
Proof.
  induction strcols as [| c rest IH]; intros Hall; [constructor |].
  inversion Hall as [| ? ? Hc Hrest]; subst.
  destruct rest as [| c' rest'].
  - assumption.
  - change (adjoin (c :: c' :: rest'))
      with (zip_append (pad_column c) (adjoin (c' :: rest'))).
    apply one_line_zip_append; [apply one_line_pad_column; assumption | auto].
Qed.

(** A frame whose columns are as long as its index is rendered as a
    header line and one line per row. *)
Lemma to_string_lines_shape (df : DataFrame) :
  Forall (fun nc => col_len (snd nc) = df.(index_len)) df.(columns) ->
  List.length (to_string_lines format_float df) = S df.(index_len)
  /\ Forall one_line (to_string_lines format_float df).
Proof.
  intros Hlen. unfold to_string_lines. split.
  - apply length_adjoin; [discriminate |].
    constructor; [apply length_str_index |].
    apply Forall_forall. intros c Hc.
    apply in_map_iff in Hc. destruct Hc as (nc & <- & Hnc).
    rewrite length_str_column. f_equal.
    rewrite Forall_forall in Hlen. auto.
  - apply one_line_adjoin. constructor; [apply one_line_str_index |].
    apply Forall_forall. intros c Hc.
    apply in_map_iff in Hc. destruct Hc as (nc & <- & _).
    apply one_line_str_column.
Qed.

Lemma head_col_len (n : nat) (c : Column) :
  col_len (head_col n c) = Nat.min n (col_len c).
Proof. destruct c; cbn; apply length_firstn. Qed.

Lemma head_lengths (n : nat) (df : DataFrame) :
  Forall (fun nc => col_len (snd nc) = df.(index_len)) df.(columns) ->
  Forall (fun nc => col_len (snd nc) = (head n df).(index_len)) (head n df).(columns).
Proof.
  intros Hlen. cbn. apply Forall_forall. intros nc Hnc.
  apply in_map_iff in Hnc. destruct Hnc as (nc' & <- & Hnc'). cbn.
  rewrite head_col_len. f_equal. rewrite Forall_forall in Hlen. auto.
Qed.

(** The text of the first rows of a frame with rows and columns: a
    header line, then [min(n, len(df))] lines. *)
Lemma head_to_string_lines (n : nat) (df : DataFrame) :
  Forall (fun nc => col_len (snd nc) = df.(index_len)) df.(columns) ->
  n <> 0 -> df.(index_len) <> 0 -> df.(columns) <> [] ->
  exists header rows,
    split_lines (to_string format_float (head n df)) = header :: rows
    /\ List.length rows = Nat.min n df.(index_len).
Proof.
  intros Hlen Hn Hrows Hcols.
  destruct (to_string_lines_shape (head n df) (head_lengths n df Hlen)) as [Hl Hone].
  assert (Hempty : empty (head n df) = false).
  { unfold empty. cbn. rewrite length_map.
    destruct df as [m cols]; cbn in *.
    destruct n; [contradiction |]. destruct m; [contradiction |].
    destruct cols; [contradiction |]. reflexivity. }
  unfold to_string. rewrite Hempty.
  rewrite split_lines_join; [| | assumption].
  - destruct (to_string_lines format_float (head n df)) as [| header rows];
      [discriminate |].
    exists header, rows. split; [reflexivity |].
    cbn in Hl. injection Hl as Hl. exact Hl.
  - intros Hnil. rewrite Hnil in Hl. discriminate.
Qed.

End RenderFacts.

(** ** The context builder *)

Section ContextFacts.
Import Pandas Aggregator.

Variable format_float : list f64 -> f64 -> string.
Variable py_str : pyobj -> string.
Hypothesis format_float_one_line : forall col v, one_line (format_float col v).

(** C7, as the code has it.  For a frame with at least one column, the
    context is the text of the first rows, then the line [Statistics:]
    after an empty line, then the rendering of the statistics.  The
    text of the first rows is a header line followed by exactly
    [min(5, len(df))] lines when the frame has rows, and the
    [Empty DataFrame] notice, which holds no row, when it has none. *)
Theorem context_sample_then_statistics (df : DataFrame) (stats : StatisticsReport) :
  wf_frame df ->
  df.(columns) <> [] ->
  prepare_context_for_ai format_float py_str df stats
    = "Data Head:" ++ nl ++ to_string format_float (head 5 df)
        ++ nl ++ nl ++ "Statistics:" ++ nl ++ py_str (stats_obj stats)
  /\ (df.(index_len) = 0 ->
      to_string format_float (head 5 df)
        = "Empty DataFrame" ++ nl
            ++ "Columns: " ++ pprint_seq (column_names df) ++ nl ++ "Index: []")
  /\ (df.(index_len) <> 0 ->
      exists header rows,
        split_lines (to_string format_float (head 5 df)) = header :: rows
        /\ List.length rows = Nat.min 5 df.(index_len)
        /\ List.length rows <= 5).
Proof.
  intros Hwf Hcols. split; [reflexivity |]. split.
  - intros Hrows. unfold to_string, empty, head, column_names. cbn.
    rewrite Hrows. cbn. rewrite map_map. cbn. reflexivity.
  - intros Hrows.
    destruct (head_to_string_lines format_float format_float_one_line 5 df
                (wf_len df Hwf) ltac:(discriminate) Hrows Hcols)
      as (header & rows & Hsplit & Hlen).
    exists header, rows. split; [exact Hsplit |]. split; [exact Hlen |].
    rewrite Hlen. apply Nat.le_min_l.
Qed.

End ContextFacts.

Lemma plain_format_float_one_line (col : list f64) (v : f64) :
  one_line (Instances.plain_format_float col v).
Proof.
  unfold Instances.plain_format_float.
  apply one_line_cons; [reflexivity |].
  destruct v as [| | | q]; try reflexivity.
  unfold Instances.exact_repr. destruct (Pos.eqb (Qden q) 1).
  - apply one_line_app; [apply one_line_string_of_Z | reflexivity].
  - apply one_line_app; [apply one_line_string_of_Z |].
    apply one_line_app; [reflexivity | apply one_line_string_of_Z].
Qed.

(** Three rows and no column: the sample is the [Empty DataFrame]
    notice, which lists the three index labels and renders no row. *)
Lemma context_without_columns_counterexample :
  Aggregator.prepare_context_for_ai Instances.plain_format_float Instances.plain_str
      {| Pandas.index_len := 3; Pandas.columns := [] |} []
    = "Data Head:" ++ nl
        ++ "Empty DataFrame" ++ nl ++ "Columns: []" ++ nl ++ "Index: [0, 1, 2]"
        ++ nl ++ nl ++ "Statistics:" ++ nl ++ "{}"
  /\ Nat.min 5 (Pandas.len {| Pandas.index_len := 3; Pandas.columns := [] |}) = 3.
Proof. split; vm_compute; reflexivity. Qed.

Lemma context_sample_then_statistics_witness :
  Aggregator.prepare_context_for_ai Instances.plain_format_float Instances.plain_str
      Instances.sales_frame []
    = "Data Head:" ++ nl
        ++ Pandas.to_string Instances.plain_format_float (Pandas.head 5 Instances.sales_frame)
        ++ nl ++ nl ++ "Statistics:" ++ nl ++ Instances.plain_str (Aggregator.stats_obj [])
  /\ (Instances.sales_frame.(Pandas.index_len) = 0 ->
      Pandas.to_string Instances.plain_format_float (Pandas.head 5 Instances.sales_frame)
        = "Empty DataFrame" ++ nl
            ++ "Columns: " ++ Pandas.pprint_seq (Pandas.column_names Instances.sales_frame)
            ++ nl ++ "Index: []")
  /\ (Instances.sales_frame.(Pandas.index_len) <> 0 ->
      exists header rows,
        split_lines (Pandas.to_string Instances.plain_format_float
                       (Pandas.head 5 Instances.sales_frame)) = header :: rows
        /\ List.length rows = Nat.min 5 Instances.sales_frame.(Pandas.index_len)
        /\ List.length rows <= 5).
Proof.
  exact (context_sample_then_statistics Instances.plain_format_float Instances.plain_str
           plain_format_float_one_line Instances.sales_frame [] sales_frame_wf
           ltac:(discriminate)).
Defined.

Example context_of_sales_frame :
  Aggregator.prepare_context_for_ai Instances.plain_format_float Instances.plain_str
      Instances.sales_frame []
  = "Data Head:" ++ nl
      ++ "   units  price region  discount  active" ++ nl
      ++ "0      4    3/2  north       nan    True" ++ nl
      ++ "1     -1    nan    NaN       nan   False" ++ nl
      ++ "2      7    5/2  south       nan    True" ++ nl ++ nl
      ++ "Statistics:" ++ nl ++ "{}".
Proof. vm_compute. reflexivity. Qed.

(* ================================================================== *)
(** * Further properties *)

(** ** The handler, case by case *)

Section UploadFacts.
Import Pandas Loader Aggregator Main Spec.

Variable json_loads : string -> result pyobj.
Variable py_str : pyobj -> string.
Variable format_float : list f64 -> f64 -> string.
Variable generate_insights : string -> result string.
Variable db_store : Report -> result Z.

Let upload := upload_report json_loads py_str format_float generate_insights db_store.

(** The handler as one case analysis on what each stage returns. *)
Lemma upload_report_eq (contents file_name : string) (tr : list event) :
  upload contents file_name tr =
    match load_csv_from_bytes contents with
    | Raise e => (failure e, tr)
    | Ok df =>
        match validate_dataframe df with
        | Raise e => (failure e, tr)
        | Ok _ =>
            match aggregate_data df with
            | Raise e => (failure e, tr)
            | Ok stats =>
                let context := prepare_context_for_ai format_float py_str df stats in
                match generate_insights context with
                | Raise e => (failure e, (tr ++ [GenerateInsights context])%list)
                | Ok ai_response =>
                    match normalize json_loads py_str ai_response with
                    | Raise e => (failure e, (tr ++ [GenerateInsights context])%list)
                    | Ok insight =>
                        let r := report_of file_name df insight in
                        match db_store r with
                        | Raise e =>
                            (failure e,
                             (tr ++ [GenerateInsights context; DbAdd r; DbCommit])%list)
                        | Ok id =>
                            (Ok {| status := "success"; report_id := id;
                                   insights := insight.(summary_text) |},
                             (tr ++ [GenerateInsights context; DbAdd r; DbCommit;
                                     DbRefresh])%list)
                        end
                    end
                end
            end
        end
    end.
Proof.
  unfold upload, upload_report, io_catch, io_bind, io_lift, io_emit, io_ret,
    failure, report_of.
  destruct (load_csv_from_bytes contents) as [df | e]; [| reflexivity].
  destruct (validate_dataframe df) as [ok | e]; [| reflexivity].
  destruct (aggregate_data df) as [stats | e]; [| reflexivity].
  cbv zeta.
  destruct (generate_insights _) as [ai_response | e]; [| reflexivity].
  destruct (normalize json_loads py_str ai_response) as [insight | e]; [| reflexivity].
  destruct (db_store _) as [id | e]; rewrite <- !app_assoc; reflexivity.
Qed.


Lemma validate_ok_has_rows (df : DataFrame) (ok : bool) :
  validate_dataframe df = Ok ok -> 1 <= len df /\ df.(columns) <> [].
Proof.
  unfold validate_dataframe, empty, len.
  destruct df as [n cols]; cbn.
  destruct n as [| n]; cbn; [discriminate |].
  destruct cols as [| c cols]; cbn; [discriminate |].
  intros _. split; [lia | discriminate].
Qed.


(** X2. When the insight service raises, the handler raises
    HTTPException 500 with the service's message; the service has been
    called once and the database has not been touched. *)
Theorem upload_service_failure (contents file_name : string) (tr : list event)
    (df : DataFrame) (ok : bool) (stats : StatisticsReport) (e : exn) :
  load_csv_from_bytes contents = Ok df ->
  validate_dataframe df = Ok ok ->
  aggregate_data df = Ok stats ->
  generate_insights (prepare_context_for_ai format_float py_str df stats)
    = Raise e ->
  upload contents file_name tr
    = (Raise (HTTPException 500 (str_exn e)),
       (tr ++ [GenerateInsights (prepare_context_for_ai format_float py_str df stats)])%list).
Proof.
  intros Hload Hval Hagg Hgen.
  rewrite upload_report_eq, Hload, Hval, Hagg. cbv zeta.
  rewrite Hgen. reflexivity.
Qed.

(** X3. When the commit raises, the handler raises HTTPException 500
    with the database's message, after the service call and the add;
    the report is not refreshed and no identifier is returned. *)
Theorem upload_commit_failure (contents file_name : string) (tr : list event)
    (df : DataFrame) (ok : bool) (stats : StatisticsReport)
    (ai_response : string) (insight : InsightResult) (e : exn) :
  load_csv_from_bytes contents = Ok df ->
  validate_dataframe df = Ok ok ->
  aggregate_data df = Ok stats ->
  generate_insights (prepare_context_for_ai format_float py_str df stats)
    = Ok ai_response ->
  normalize json_loads py_str ai_response = Ok insight ->
  db_store (report_of file_name df insight) = Raise e ->
  upload contents file_name tr
    = (Raise (HTTPException 500 (str_exn e)),
       (tr ++ [GenerateInsights (prepare_context_for_ai format_float py_str df stats);
               DbAdd (report_of file_name df insight);
               DbCommit])%list).
Proof.
  intros Hload Hval Hagg Hgen Hnorm Hdb.
  rewrite upload_report_eq, Hload, Hval, Hagg. cbv zeta.
  rewrite Hgen, Hnorm, Hdb. reflexivity.
Qed.


(** X5. A report that the handler adds to the database has the name of
    the uploaded file and the row count of the loaded frame, which is
    at least 1: an upload without a data row is never stored. *)
Theorem upload_stores_nonempty_report (contents file_name : string)
    (tr : list event) (r : Report) :
  In (DbAdd r) (snd (upload contents file_name tr)) ->
  In (DbAdd r) tr
  \/ (r.(filename) = file_name
      /\ 1 <= r.(total_rows)
      /\ exists df, load_csv_from_bytes contents = Ok df
                    /\ r.(total_rows) = df.(index_len)).
Proof.
  rewrite upload_report_eq.
  destruct (load_csv_from_bytes contents) as [df | e]; [| cbn; auto].
  destruct (validate_dataframe df) as [ok | e] eqn:Hval; [| cbn; auto].
  destruct (validate_ok_has_rows df ok Hval) as [Hrows _].
  destruct (aggregate_data df) as [stats | e]; [| cbn; auto].
  cbv zeta.
  assert (Hnew : forall context insight evs,
            In (DbAdd r) (tr ++ GenerateInsights context
                              :: DbAdd (report_of file_name df insight) :: evs)%list ->
            (forall ev, In ev evs -> ev = DbCommit \/ ev = DbRefresh) ->
            In (DbAdd r) tr
            \/ (r.(filename) = file_name /\ 1 <= r.(total_rows)
                /\ exists df0, Ok df = Ok df0 /\ r.(total_rows) = df0.(index_len))).
  { intros context insight evs Hin Hevs.
    apply in_app_or in Hin. destruct Hin as [Hin | [Hin | [Hin | Hin]]].
    - auto.
    - discriminate.
    - injection Hin as <-. right. cbn. split; [reflexivity |].
      split; [exact Hrows |]. exists df. auto.
    - destruct (Hevs _ Hin); discriminate. }
  destruct (generate_insights _) as [ai_response | e].
  2: { cbn. intros Hin. apply in_app_or in Hin.
       destruct Hin as [Hin | [Hin | []]]; [auto | discriminate]. }
  destruct (normalize json_loads py_str ai_response) as [insight | e].
  2: { cbn. intros Hin. apply in_app_or in Hin.
       destruct Hin as [Hin | [Hin | []]]; [auto | discriminate]. }
  destruct (db_store _) as [id | e]; cbn; intros Hin.
  - apply (Hnew _ _ _ Hin). cbn. intuition.
  - apply (Hnew _ _ _ Hin). cbn. intuition.
Qed.

End UploadFacts.


Lemma upload_service_failure_witness :
  Main.upload_report Instances.read_json Instances.plain_str
      Instances.plain_format_float Instances.service_down Instances.db_ok
      Instances.small_csv "report.csv" []
  = (Raise (HTTPException 500 "quota exceeded"),
     [Main.GenerateInsights Instances.small_context]).
Proof.
  apply (upload_service_failure Instances.read_json Instances.plain_str
           Instances.plain_format_float Instances.service_down Instances.db_ok
           Instances.small_csv "report.csv" [] Instances.small_frame true
           Instances.small_stats (ServiceError "quota exceeded"));
    vm_compute; reflexivity.
Defined.

Lemma upload_commit_failure_witness :
  Main.upload_report Instances.read_json Instances.plain_str
      Instances.plain_format_float Instances.service_ok Instances.db_down
      Instances.small_csv "report.csv" []
  = (Raise (HTTPException 500 "database is locked"),
     [Main.GenerateInsights Instances.small_context;
      Main.DbAdd (Spec.report_of "report.csv" Instances.small_frame
                    Instances.scored_insight);
      Main.DbCommit]).
Proof.
  apply (upload_commit_failure Instances.read_json Instances.plain_str
           Instances.plain_format_float Instances.service_ok Instances.db_down
           Instances.small_csv "report.csv" [] Instances.small_frame true
           Instances.small_stats Instances.scored_response
           Instances.scored_insight (ServiceError "database is locked"));
    vm_compute; reflexivity.
Defined.

Lemma upload_stores_nonempty_report_witness :
  In (Main.DbAdd (Spec.report_of "report.csv" Instances.small_frame
                    Instances.scored_insight)) []
  \/ ((Spec.report_of "report.csv" Instances.small_frame
         Instances.scored_insight).(Main.filename) = "report.csv"
      /\ 1 <= (Spec.report_of "report.csv" Instances.small_frame
                 Instances.scored_insight).(Main.total_rows)
      /\ exists df, Loader.load_csv_from_bytes Instances.small_csv = Ok df
                    /\ (Spec.report_of "report.csv" Instances.small_frame
                          Instances.scored_insight).(Main.total_rows)
                       = df.(Pandas.index_len)).
Proof.
  apply (upload_stores_nonempty_report Instances.read_json Instances.plain_str
           Instances.plain_format_float Instances.service_ok Instances.db_ok
           Instances.small_csv "report.csv" []).
  vm_compute. right. left. reflexivity.
Defined.

(** ** More on the normalization *)

Section NormalizeMore.
Import Main.

Variable json_loads : string -> result pyobj.
Variable py_str : pyobj -> string.

(** X6. A response that is valid JSON but not an object (a list, a
    string, a number, true, false, null) is handled like one that does
    not parse: [.get] raises, the bare [except] takes over, and the
    result is the raw response with the score 50.0, not the rendering
    of the parsed value. *)
Theorem normalize_non_object (raw : string) (o : pyobj) :
  json_loads raw = Ok o ->
  Spec.is_dict o = false ->
  normalize json_loads py_str raw =
    Ok {| summary_text := raw; score := PyFloat (f64_of_Q 50) |}.
Proof.
  intros Hparse Hnot. unfold normalize. rewrite Hparse.
  destruct o; try reflexivity. discriminate.
Qed.

(** X7. The score is the value found under "overall_score", whatever
    its type: a string, a list or null is passed on as it is, with the
    rendering of the whole object as summary. *)
Theorem normalize_score_unchecked (raw : string) (items : list (string * pyobj))
    (v : pyobj) :
  json_loads raw = Ok (PyDict items) ->
  dict_get "overall_score" items = Some v ->
  normalize json_loads py_str raw =
    Ok {| summary_text := py_str (PyDict items); score := v |}.
Proof.
  intros Hparse Hscore. unfold normalize. rewrite Hparse. cbn.
  rewrite Hscore. reflexivity.
Qed.

End NormalizeMore.

Lemma normalize_non_object_witness :
  Main.normalize Instances.read_json Instances.plain_str Instances.list_response
  = Ok {| Main.summary_text := "[1, 2]"; Main.score := PyFloat (f64_of_Q 50) |}.
Proof.
  apply (normalize_non_object Instances.read_json Instances.plain_str
           Instances.list_response (PyList [PyInt 1; PyInt 2]));
    vm_compute; reflexivity.
Defined.

Lemma normalize_score_unchecked_witness :
  Main.normalize Instances.read_json Instances.plain_str Instances.worded_response
  = Ok {| Main.summary_text := "{'overall_score': 'high'}";
          Main.score := PyStr "high" |}.
Proof.
  apply (normalize_score_unchecked Instances.read_json Instances.plain_str
           Instances.worded_response [("overall_score", PyStr "high")] (PyStr "high"));
    vm_compute; reflexivity.
Defined.

(** ** The frames that the loader returns *)

Section LoadedFrames.
Import Pandas Loader.

Lemma all_some_length {A} (l : list (option A)) (l' : list A) :
  all_some l = Some l' -> List.length l' = List.length l.
Proof.
  revert l'. induction l as [| [a |] l IH]; cbn; intros l' H.
  - injection H as <-. reflexivity.
  - destruct (all_some l) as [r |]; [| discriminate].
    injection H as <-. cbn. f_equal. apply IH. reflexivity.
  - discriminate.
Qed.

Lemma forallb_fits_int64 (zs : list Z) :
  forallb fits_int64 zs = true -> Forall in_int64 zs.
Proof.
  intros H. apply Forall_forall. intros z Hz.
  rewrite forallb_forall in H. specialize (H z Hz).
  unfold fits_int64 in H. apply andb_true_iff in H. destruct H as [H1 H2].
  unfold in_int64. split; [apply Z.leb_le | apply Z.leb_le]; assumption.
Qed.

Lemma infer_column_shape (cells : list string) (c : Column) :
  infer_column cells = Ok c ->
  col_len c = List.length cells /\ col_in_range c.
Proof.
  unfold infer_column. destruct cells as [| s cells].
  - intros H. injection H as <-. cbn. auto.
  - set (l := s :: cells).
    destruct (if forallb (fun s0 => negb (is_na s0)) l
              then all_some (map parse_int l) else None) as [zs |] eqn:Hint.
    + destruct (forallb fits_int64 zs) eqn:Hfit; [| discriminate].
      intros H. injection H as <-. cbn. split.
      * destruct (forallb (fun s0 => negb (is_na s0)) l); [| discriminate].
        rewrite (all_some_length _ _ Hint). apply length_map.
      * apply forallb_fits_int64. assumption.
    + destruct (all_some (map (fun s0 => if is_na s0 then Some NaN else parse_float s0) l))
        as [fs |] eqn:Hfl.
      * intros H. injection H as <-. cbn. split; [| exact I].
        rewrite (all_some_length _ _ Hfl). apply length_map.
      * destruct (if forallb (fun s0 => negb (is_na s0)) l
                  then all_some (map parse_bool l) else None) as [bs |] eqn:Hb.
        -- intros H. injection H as <-. cbn. split; [| exact I].
           destruct (forallb (fun s0 => negb (is_na s0)) l); [| discriminate].
           rewrite (all_some_length _ _ Hb). apply length_map.
        -- intros H. injection H as <-. split; [| exact I].
           unfold col_len, l. cbn [List.length]. rewrite length_map. reflexivity.
Qed.

Lemma infer_columns_shape (names : list string) (j : nat)
    (rows : list (list string)) (cols : list (string * Column)) :
  infer_columns names j rows = Ok cols ->
  map fst cols = names
  /\ Forall (fun nc => col_len (snd nc) = List.length rows) cols
  /\ Forall (fun nc => col_in_range (snd nc)) cols.
Proof.
  revert j cols. induction names as [| n names IH]; cbn; intros j cols H.
  - injection H as <-. repeat split; constructor.
  - destruct (infer_column (map (fun r => nth j r "") rows)) as [c | e] eqn:Hc;
      [| discriminate]. cbn in H.
    destruct (infer_columns names (S j) rows) as [rest | e] eqn:Hrest;
      [| discriminate]. cbn in H. injection H as <-.
    destruct (IH _ _ Hrest) as (Hn & Hl & Hr).
    destruct (infer_column_shape _ _ Hc) as [Hlen Hrange].
    rewrite length_map in Hlen.
    cbn. rewrite Hn. repeat split; constructor; assumption.
Qed.

Lemma check_rows_length (ncols : nat) (first : bool)
    (rows rows' : list (list string)) :
  check_rows ncols first rows = Ok rows' -> List.length rows' = List.length rows.
Proof.
  revert first rows'.
  induction rows as [| r rows IH]; cbn [check_rows]; intros first rows' H.
  - injection H as <-. reflexivity.
  - destruct (Nat.ltb ncols (List.length r)); [discriminate |].
    destruct (check_rows ncols false rows) as [rest | e] eqn:Hrest;
      cbn in H; [| discriminate].
    injection H as <-. cbn. f_equal. eapply IH. eassumption.
Qed.

Lemma set_nth_length {A} (i : nat) (v : A) (l : list A) :
  List.length (set_nth i v l) = List.length l.
Proof.
  revert i. induction l as [| x l IH]; intros [| i]; cbn; auto.
Qed.

Lemma dedup_step_length (st : list string * list (string * nat)) (i : nat) :
  List.length (fst (dedup_step st i)) = List.length (fst st).
Proof.
  unfold dedup_step. destruct st as [this_header counts].
  destruct (dedup_loop _ _ _ _ _ _) as [[col cur] counts']. cbn.
  apply set_nth_length.
Qed.

Lemma header_names_length (fields : list string) :
  List.length (header_names fields) = List.length fields.
Proof.
  unfold header_names.
  set (order := (_ ++ _)%list). set (init := map _ _).
  assert (H : forall l st, List.length (fst (fold_left dedup_step l st))
                           = List.length (fst st)).
  { induction l as [| i l IH]; intros st; cbn; [reflexivity |].
    rewrite IH. apply dedup_step_length. }
  rewrite H. cbn. unfold init. rewrite length_map, length_seq. reflexivity.
Qed.

Lemma loaded_frame_shape (raw : string) (df : DataFrame) :
  load_csv_from_bytes raw = Ok df ->
  exists header data,
    tokenize raw = Ok (header :: data)
    /\ List.length df.(columns) = List.length header
    /\ df.(index_len) = List.length data
    /\ Forall (fun nc => col_len (snd nc) = df.(index_len)) df.(columns)
    /\ Forall (fun nc => col_in_range (snd nc)) df.(columns).
Proof.
  unfold load_csv_from_bytes, read_csv.
  destruct (negb (utf8_valid raw)); [discriminate |].
  destruct (tokenize raw) as [[| header data] | e]; cbn; try discriminate.
  destruct (check_rows (List.length (header_names header)) true data)
    as [data' | e] eqn:Hrows; cbn; [| discriminate].
  destruct (infer_columns (header_names header) 0 data') as [cols | e] eqn:Hcols;
    cbn; [| discriminate].
  intros H. injection H as <-. cbn.
  destruct (infer_columns_shape _ _ _ _ Hcols) as (Hn & Hl & Hr).
  exists header, data. split; [reflexivity |]. split; [| split; [| split]].
  - rewrite <- (length_map fst cols), Hn. apply header_names_length.
  - eapply check_rows_length. eassumption.
  - assumption.
  - assumption.
Qed.

(** X8. A frame that the loader returns has one column per field of
    the header line and one row per record after it; every column is
    exactly as long as the index, and every int64 value is in range. *)
Theorem load_csv_frame_shape (raw : string) (df : DataFrame) :
  load_csv_from_bytes raw = Ok df ->
  exists header data,
    tokenize raw = Ok (header :: data)
    /\ List.length df.(columns) = List.length header
    /\ df.(index_len) = List.length data
    /\ Forall (fun nc => col_len (snd nc) = df.(index_len)) df.(columns)
    /\ Forall (fun nc => col_in_range (snd nc)) df.(columns).
Proof.
  intros Hload. apply loaded_frame_shape. exact Hload.
Qed.

End LoadedFrames.

Lemma load_csv_frame_shape_witness :
  exists header data,
    Pandas.tokenize Instances.small_csv = Ok (header :: data)
    /\ List.length Instances.small_frame.(Pandas.columns) = List.length header
    /\ Instances.small_frame.(Pandas.index_len) = List.length data
    /\ Forall (fun nc => Pandas.col_len (snd nc) = Instances.small_frame.(Pandas.index_len))
              Instances.small_frame.(Pandas.columns)
    /\ Forall (fun nc => Pandas.col_in_range (snd nc))
              Instances.small_frame.(Pandas.columns).
Proof.
  apply (load_csv_frame_shape Instances.small_csv Instances.small_frame).
  vm_compute. reflexivity.
Defined.

(** ** Uploads without content *)

Section BlankInput.
Import Pandas Loader.

Lemma is_blank_cases (c : ascii) :
  Spec.is_blank c = true -> c = LF \/ c = CR \/ c = SPACE \/ c = TAB.
Proof.
  unfold Spec.is_blank. intros H.
  repeat (apply orb_true_iff in H; destruct H as [H | H]);
    apply Ascii.eqb_eq in H; auto.
Qed.

Lemma utf8_valid_blank (s : string) : Spec.all_blank s = true -> utf8_valid s = true.
Proof.
  induction s as [| c s IH]; cbn [Spec.all_blank utf8_valid]; intros H;
    [reflexivity |].
  apply andb_true_iff in H. destruct H as [Hc Hs].
  destruct (is_blank_cases c Hc) as [-> | [-> | [-> | ->]]]; cbn; auto.
Qed.

Lemma step_blank (t : tokenizer) (c : ascii) :
  Spec.is_blank c = true -> Spec.between_records t -> Spec.between_records (step t c).
Proof.
  intros Hc (Hst & Hr & Hrs).
  destruct t as [st f r rs]. cbn in Hst, Hr, Hrs. subst r rs.
  unfold Spec.between_records.
  destruct (is_blank_cases c Hc) as [-> | [-> | [-> | ->]]];
    destruct Hst as [-> | [-> | ->]]; cbn; auto.
Qed.

Lemma tokenize_bytes_blank (s : string) (t : tokenizer) :
  Spec.all_blank s = true -> Spec.between_records t ->
  Spec.between_records (tokenize_bytes s t).
Proof.
  revert t. induction s as [| c s IH]; cbn [Spec.all_blank tokenize_bytes];
    intros t H Ht; [assumption |].
  apply andb_true_iff in H. destruct H as [Hc Hs].
  apply IH; [assumption |]. apply step_blank; assumption.
Qed.

(** X9. An upload made only of blanks and line breaks (the empty
    upload included) holds no header line: the loader raises
    EmptyDataError, as its docstring announces for empty content. *)
Theorem load_blank_is_empty_data (raw : string) :
  Spec.all_blank raw = true ->
  load_csv_from_bytes raw = Raise (EmptyDataError "No columns to parse from file").
Proof.
  intros Hblank. unfold load_csv_from_bytes, read_csv.
  rewrite (utf8_valid_blank raw Hblank). cbn [negb].
  unfold tokenize.
  pose proof (tokenize_bytes_blank raw
                {| state := START_RECORD; field := []; record := []; records := [] |}
                Hblank) as H.
  destruct H as (Hst & Hr & Hrs).
  { unfold Spec.between_records. cbn. auto. }
  unfold handle_eof.
  destruct Hst as [-> | [-> | ->]]; rewrite Hrs; reflexivity.
Qed.

End BlankInput.

Lemma load_blank_is_empty_data_witness :
  Loader.load_csv_from_bytes (nl ++ "  " ++ String CR nl ++ String TAB "")
  = Raise (EmptyDataError "No columns to parse from file").
Proof.
  apply load_blank_is_empty_data. vm_compute. reflexivity.
Defined.

(** ** More on the aggregator *)

Section AggregatorMore.
Import Pandas Aggregator.







End AggregatorMore.



Section AggregatorEdges.
Import Pandas Aggregator.

Lemma fold_fmin_in (l : list f64) (a : f64) : In (fold_left fmin l a) (a :: l).
Proof.
  revert a. induction l as [| v l IH]; intros a; cbn [fold_left].
  - left. reflexivity.
  - destruct (IH (fmin a v)) as [H | H].
    + rewrite <- H. unfold fmin. destruct (fle a v); cbn; auto.
    + right. right. assumption.
Qed.

Lemma fold_fmax_in (l : list f64) (a : f64) : In (fold_left fmax l a) (a :: l).
Proof.
  revert a. induction l as [| v l IH]; intros a; cbn [fold_left].
  - left. reflexivity.
  - destruct (IH (fmax a v)) as [H | H].
    + rewrite <- H. unfold fmax. destruct (fle a v); cbn; auto.
    + right. right. assumption.
Qed.

Lemma reduce_in (f : f64 -> f64 -> f64) (l : list f64) :
  (forall m a, In (fold_left f m a) (a :: m)) ->
  l <> [] -> In (Pandas.reduce f l NaN) l.
Proof.
  intros Hf Hne. destruct l as [| a m]; [contradiction |]. cbn. apply Hf.
Qed.

Lemma in_fillna_inv (fill x : f64) (vs : list f64) :
  In x (fillna fill vs) -> (In x vs /\ isnan x = false) \/ x = fill.
Proof.
  unfold fillna. intros H. apply in_map_iff in H. destruct H as (v & Hx & Hv).
  destruct (isnan v) eqn:E; [right; auto |].
  left. subst x. auto.
Qed.

Lemma count_valid_positive (vs : list f64) (v : f64) :
  In v vs -> isnan v = false -> Nat.eqb (count_valid vs) 0 = false.
Proof.
  intros Hin Hv. apply Nat.eqb_neq. unfold count_valid. intros H.
  apply length_zero_iff_nil in H.
  assert (Hf : In v (filter (fun v => negb (isnan v)) vs)).
  { apply filter_In. rewrite Hv. auto. }
  rewrite H in Hf. contradiction.
Qed.

(** X12. For a float64 column with at least one valid value, the
    reported min and max are themselves valid values of the column:
    never NaN, and never the infinity that stands in for a missing
    value unless the column holds that infinity. *)
Theorem aggregate_float_extrema_attained (df : DataFrame) (n : string)
    (vs : list f64) (v0 : f64) :
  wf_frame df ->
  In (n, Float64Col vs) df.(columns) ->
  In v0 vs -> isnan v0 = false ->
  exists report s lo hi,
    aggregate_data df = Ok report
    /\ dict_get n report = Some s
    /\ s.(st_min) = F64 lo /\ s.(st_max) = F64 hi
    /\ In lo vs /\ isnan lo = false
    /\ In hi vs /\ isnan hi = false.
Proof.
  intros Hwf Hin Hv0 Hvalid.
  destruct (aggregate_data_entries df Hwf) as (report & Hagg & _ & Hentries).
  destruct (Hentries n (Float64Col vs) Hin (or_intror eq_refl))
    as (s & Hget & _ & _ & Hmin & Hmax).
  cbn in Hmin, Hmax.
  rewrite (count_valid_positive vs v0 Hv0 Hvalid) in Hmin, Hmax.
  injection Hmin as Hlo. injection Hmax as Hhi.
  assert (Hne : forall fill, fillna fill vs <> []).
  { intros fill H. unfold fillna in H. apply map_eq_nil in H.
    subst vs. contradiction. }
  exists report, s, (reduce fmin (fillna PInf vs) NaN),
    (reduce fmax (fillna NInf vs) NaN).
  split; [exact Hagg |]. split; [exact Hget |].
  split; [auto |]. split; [auto |].
  pose proof (reduce_fmin_lower vs v0 Hv0 Hvalid) as Hle.
  pose proof (reduce_fmax_upper vs v0 Hv0 Hvalid) as Hge.
  destruct (in_fillna_inv PInf _ vs (reduce_in fmin _ fold_fmin_in (Hne PInf)))
    as [[Hl1 Hl2] | Hl];
  destruct (in_fillna_inv NInf _ vs (reduce_in fmax _ fold_fmax_in (Hne NInf)))
    as [[Hh1 Hh2] | Hh].
  - auto.
  - rewrite Hh in Hge |- *.
    destruct v0; try discriminate. auto.
  - rewrite Hl in Hle |- *.
    destruct v0; try discriminate. auto.
  - rewrite Hl in Hle |- *. rewrite Hh in Hge |- *.
    destruct v0; discriminate.
Qed.

Lemma filter_nothing {A} (f : A -> bool) (l : list A) :
  (forall x, In x l -> f x = false) -> filter f l = [].
Proof.
  induction l as [| x l IH]; cbn; intros H; [reflexivity |].
  rewrite (H x (or_introl eq_refl)). apply IH. auto.
Qed.

(** X13. A frame without an int64 or float64 column (only text or
    boolean columns, or no column at all) gives the empty report, and
    no error, whatever else holds of the frame. *)
Theorem aggregate_without_numeric_columns (df : DataFrame) :
  (forall n c, In (n, c) df.(columns) -> ~ Spec.numeric c) ->
  aggregate_data df = Ok [].
Proof.
  intros Hnone. unfold aggregate_data, select_dtypes, column_names. cbn [columns].
  rewrite filter_nothing; [reflexivity |].
  intros [n c] Hin.
  destruct (existsb (dtype_eqb (dtype_of (snd (n, c)))) [float64; int64]) eqn:E;
    [| reflexivity].
  exfalso. apply (Hnone n c Hin).
  apply (proj1 (is_selected_numeric (n, c))). exact E.
Qed.

(** X14. The keys of the report are the labels of the int64 and
    float64 columns in the order of the frame, each once: the report is
    filled in column order and no entry overwrites another. *)
Theorem aggregate_keys_in_column_order (df : DataFrame) :
  wf_frame df ->
  exists report,
    aggregate_data df = Ok report
    /\ dict_keys report = map fst (filter Spec.is_selected df.(columns))
    /\ NoDup (dict_keys report).
Proof.
  intros Hwf.
  destruct (aggregate_data_entries df Hwf) as (report & Hagg & Hkeys & _).
  exists report. split; [exact Hagg |]. split; [exact Hkeys |].
  rewrite Hkeys. apply NoDup_map_fst_filter. apply Hwf.
Qed.

End AggregatorEdges.

Lemma aggregate_float_extrema_attained_witness :
  exists report s lo hi,
    Aggregator.aggregate_data Instances.sales_frame = Ok report
    /\ dict_get "price" report = Some s
    /\ s.(Aggregator.st_min) = F64 lo /\ s.(Aggregator.st_max) = F64 hi
    /\ In lo [f64_of_Q (3 # 2); NaN; f64_of_Q (5 # 2)] /\ isnan lo = false
    /\ In hi [f64_of_Q (3 # 2); NaN; f64_of_Q (5 # 2)] /\ isnan hi = false.
Proof.
  apply (aggregate_float_extrema_attained Instances.sales_frame "price"
           [f64_of_Q (3 # 2); NaN; f64_of_Q (5 # 2)] (f64_of_Q (3 # 2))).
  - exact sales_frame_wf.
  - cbn. tauto.
  - cbn. tauto.
  - reflexivity.
Defined.

Lemma aggregate_without_numeric_columns_witness :
  Aggregator.aggregate_data
    {| Pandas.index_len := 2;
       Pandas.columns := [("name", Pandas.ObjectCol [Some "x"; None]);
                          ("flag", Pandas.BoolCol [true; false])] |}
  = Ok [].
Proof.
  apply aggregate_without_numeric_columns.
  intros n c [H | [H | []]]; injection H as <- <-;
    intros [Hn | Hn]; discriminate.
Defined.

Lemma aggregate_keys_in_column_order_witness :
  exists report,
    Aggregator.aggregate_data Instances.sales_frame = Ok report
    /\ dict_keys report
       = map fst (filter Spec.is_selected Instances.sales_frame.(Pandas.columns))
    /\ NoDup (dict_keys report).
Proof.
  exact (aggregate_keys_in_column_order Instances.sales_frame sales_frame_wf).
Defined.

(** ** More on the context builder *)

Section ContextMore.
Import Pandas Aggregator.

Variable format_float : list f64 -> f64 -> string.
Variable py_str : pyobj -> string.





End ContextMore.

Section SampleRows.
Import Pandas Aggregator.

Variable format_float : list f64 -> f64 -> string.
Hypothesis format_float_one_line : forall col v, one_line (format_float col v).






End SampleRows.


(** ** The database session *)

Section SessionFacts.
Import Connection.

Lemma drive_finished (ops : list gen_op) : drive Finished ops = (Finished, []).
Proof.
  induction ops as [| op ops IH]; cbn; [reflexivity |].
  destruct op; cbn; rewrite IH; reflexivity.
Qed.

(** X17. However the consumer drives the generator of [get_db], a
    session is created at most once and closed at most once, and only
    after it was created.  It is left open only while the generator is
    suspended at its [yield]: as soon as the consumer does anything
    more with it (resumes it, throws the handler's exception into it or
    closes it), the session is closed. *)
Theorem get_db_closes_its_session (ops : list gen_op) :
  (drive Created ops = (Created, []) /\ ops = [])
  \/ drive Created ops = (Finished, [])
  \/ (drive Created ops = (Suspended, [SessionLocal]) /\ ops = [Next])
  \/ (drive Created ops = (Finished, [SessionLocal; SessionClose])
      /\ exists op rest, ops = Next :: op :: rest).
Proof.
  destruct ops as [| op ops]; [left; auto |].
  destruct op as [| e |].
  - destruct ops as [| op ops].
    + right. right. left. auto.
    + right. right. right. split; [| eauto].
      destruct op; cbn; rewrite drive_finished; reflexivity.
  - right. left. cbn. rewrite drive_finished. reflexivity.
  - right. left. cbn. rewrite drive_finished. reflexivity.
Qed.

End SessionFacts.

(** ** Loading, then validating *)

Section LoadThenValidate.
Import Pandas Loader.

Lemma rev_not_nil {A} (l : list A) : l <> [] -> rev l <> [].
Proof.
  destruct l as [| x l]; [contradiction |]. intros _ H.
  apply (f_equal (@List.length A)) in H. cbn in H.
  rewrite length_app in H. cbn in H. lia.
Qed.

Ltac records_case :=
  cbn;
  (split;
   [ repeat constructor; auto;
     try (apply rev_not_nil; auto; discriminate);
     try (let H := fresh in
          intros H; apply app_eq_nil in H; destruct H as [_ H]; discriminate)
   | intros; auto; try discriminate ]).

Ltac records_step :=
  repeat match goal with
         | |- context [if ?b then _ else _] => destruct b
         end;
  records_case.

Lemma step_records (t : tokenizer) (c : ascii) :
  Spec.records_have_fields t -> Spec.records_have_fields (step t c).
Proof.
  intros [Hrs Hr]. destruct t as [st f r rs]. cbn in Hrs, Hr.
  unfold Spec.records_have_fields, step, start_record_step, start_field_step,
    in_field_step.
  cbn [state].
  destruct st; try (specialize (Hr eq_refl)); records_step.
Qed.

Lemma tokenize_bytes_records (s : string) (t : tokenizer) :
  Spec.records_have_fields t -> Spec.records_have_fields (tokenize_bytes s t).
Proof.
  revert t. induction s as [| c s IH]; cbn [tokenize_bytes]; intros t Ht;
    [assumption |].
  apply IH. apply step_records. assumption.
Qed.

Lemma tokenize_records (raw : string) (rows : list (list string)) :
  tokenize raw = Ok rows -> Forall (fun r : list string => r <> []) rows.
Proof.
  unfold tokenize.
  pose proof (tokenize_bytes_records raw
                {| state := START_RECORD; field := []; record := []; records := [] |})
    as H.
  destruct H as [Hrs Hr].
  { split; cbn; [constructor | discriminate]. }
  destruct (tokenize_bytes raw _) as [st f r rs]. cbn in Hrs, Hr.
  unfold handle_eof. cbn [state records].
  assert (Hrev : Forall (fun r0 : list string => r0 <> []) (rev rs)).
  { apply Forall_rev. assumption. }
  destruct st; intros H; try discriminate; injection H as <-; try assumption;
    cbn; apply Forall_app; split; try assumption;
    repeat constructor; try (apply rev_not_nil; auto; discriminate);
    try (let H := fresh in
         intros H; apply app_eq_nil in H; destruct H as [_ H]; discriminate).
Qed.

(** X18. A frame that the loader returns has at least one column, so
    the validator rejects it exactly when it has no row, that is, when
    the upload had a header line and no data record; every upload with
    a data record that loads also passes the validation. *)
Theorem loaded_frame_validation (raw : string) (df : DataFrame) :
  load_csv_from_bytes raw = Ok df ->
  1 <= List.length df.(columns)
  /\ (df.(index_len) = 0 ->
      validate_dataframe df = Raise (ValueError "Empty dataframe"))
  /\ (df.(index_len) <> 0 -> validate_dataframe df = Ok true).
Proof.
  intros Hload.
  destruct (loaded_frame_shape raw df Hload)
    as (header & data & Htok & Hcols & Hrows & _).
  pose proof (tokenize_records raw _ Htok) as Hfields.
  inversion Hfields as [| ? ? Hheader _]; subst.
  assert (Hpos : 1 <= List.length df.(columns)).
  { rewrite Hcols. destruct header; [contradiction | cbn; lia]. }
  split; [exact Hpos |].
  unfold validate_dataframe, empty.
  destruct (List.length (columns df)) as [| k] eqn:Hk; [lia |].
  split; intros Hn.
  - rewrite Hn. reflexivity.
  - destruct (index_len df); [contradiction | reflexivity].
Qed.

End LoadThenValidate.

Lemma loaded_frame_validation_witness :
  1 <= List.length Instances.small_frame.(Pandas.columns)
  /\ (Instances.small_frame.(Pandas.index_len) = 0 ->
      Loader.validate_dataframe Instances.small_frame
        = Raise (ValueError "Empty dataframe"))
  /\ (Instances.small_frame.(Pandas.index_len) <> 0 ->
      Loader.validate_dataframe Instances.small_frame = Ok true).
Proof.
  apply (loaded_frame_validation Instances.small_csv Instances.small_frame).
  vm_compute. reflexivity.
Defined.
